(** * Namespace ownership verification (namespaces-mcp/level1/verification)

    A shallow embedding of the three verifiers
    [github-oauth-verifier.py], [dns-txt-verifier.py],
    [http-well-known-verifier.py] and of the dispatcher
    [verification-system.py].

    The Python code talks to the outside world through [requests],
    [dns.resolver], [datetime.utcnow], [time.time], [secrets.token_hex]
    and [hashlib.sha256].  These library calls are modelled by a [world]
    record that answers them; every network request is appended to a
    call log, so that the number and order of outbound calls can be
    stated.  Python exceptions are modelled by the [Raised] outcome. *)

From Stdlib Require Import String Ascii ZArith List Bool.
From stdpp Require Import base strings pretty gmap.
#[local] Set Warnings "-register-all".
Import ListNotations.

Local Open Scope string_scope.

(* ------------------------------------------------------------------ *)
(** ** Python string helpers *)

(** [s.startswith(p)] *)
Fixpoint startswith (p s : string) : bool :=
  match p, s with
  | EmptyString, _ => true
  | String c p', String d s' => Ascii.eqb c d && startswith p' s'
  | String _ _, EmptyString => false
  end.

(** [s[n:]] *)
Fixpoint str_drop (n : nat) (s : string) : string :=
  match n, s with
  | O, _ => s
  | S n', String _ s' => str_drop n' s'
  | S _, EmptyString => EmptyString
  end.

(** [c in s] for a one-character needle *)
Fixpoint contains_char (c : ascii) (s : string) : bool :=
  match s with
  | EmptyString => false
  | String d s' => Ascii.eqb c d || contains_char c s'
  end.

(** [s.split(c)[0]]: the text before the first [c] (all of [s] if none) *)
Fixpoint before_char (c : ascii) (s : string) : string :=
  match s with
  | EmptyString => EmptyString
  | String d s' => if Ascii.eqb c d then EmptyString else String d (before_char c s')
  end.

(** [s.split(c, 1)[1]] when [c in s]: the text after the first [c] *)
Fixpoint after_char (c : ascii) (s : string) : string :=
  match s with
  | EmptyString => EmptyString
  | String d s' => if Ascii.eqb c d then s' else after_char c s'
  end.

(** Python's [str.isspace] on one Latin-1 character: [\t \n \v \f \r],
    the separators [\x1c]..[\x1f], the space, [\x85] and [\xa0]. *)
Definition py_isspace (c : ascii) : bool :=
  let n := nat_of_ascii c in
  ((9 <=? n) && (n <=? 13))%nat || ((28 <=? n) && (n <=? 32))%nat
  || (n =? 133)%nat || (n =? 160)%nat.

Fixpoint lstrip_by (f : ascii -> bool) (s : string) : string :=
  match s with
  | EmptyString => EmptyString
  | String c s' => if f c then lstrip_by f s' else s
  end.

Fixpoint rev_str (s : string) (acc : string) : string :=
  match s with
  | EmptyString => acc
  | String c s' => rev_str s' (String c acc)
  end.

(** [s.strip(chars)] with the set of stripped characters given by [f] *)
Definition strip_by (f : ascii -> bool) (s : string) : string :=
  rev_str (lstrip_by f (rev_str (lstrip_by f s) EmptyString)) EmptyString.

(** [s.strip()] *)
Definition py_strip (s : string) : string := strip_by py_isspace s.

Definition dquote : ascii := ascii_of_nat 34.

(** [s.strip(q)] where [q] is the double-quote character *)
Definition strip_dquotes (s : string) : string := strip_by (Ascii.eqb dquote) s.

(** [str(n)] for a Python int *)
Definition py_int_str (z : Z) : string := pretty z.

(** [s.endswith(suf)] *)
Definition endswith (suf s : string) : bool :=
  String.eqb (str_drop (String.length s - String.length suf) s) suf.

(** The one-character string [\n] *)
Definition nl : string := String (ascii_of_nat 10) EmptyString.

(** A text between double quotes, as an f-string [f'"{s}"'] writes it *)
Definition dq (s : string) : string := String dquote (s ++ String dquote EmptyString).

(** [%0nd] of a non-negative integer *)
Definition zero_pad (n : nat) (z : Z) : string :=
  let s := py_int_str z in
  String.concat "" (repeat "0" (n - String.length s)) ++ s.

(** The proleptic Gregorian date [(year, month, day)] of a day count
    from 1970-01-01, as [datetime] computes it. *)
Definition civil_from_days (days : Z) : Z * Z * Z :=
  (let z := days + 719468 in
  let era := z / 146097 in
  let doe := z - era * 146097 in
  let yoe := (doe - doe / 1460 + doe / 36524 - doe / 146096) / 365 in
  let doy := doe - (365 * yoe + yoe / 4 - yoe / 100) in
  let mp := (5 * doy + 2) / 153 in
  let d := doy - (153 * mp + 2) / 5 + 1 in
  let m := if mp <? 10 then mp + 3 else mp - 9 in
  let y := yoe + era * 400 in
  ((if m <=? 2 then y + 1 else y), m, d))%Z.

(** [datetime.isoformat()] of the naive UTC datetime [t_us]
    microseconds after the epoch: [YYYY-MM-DDTHH:MM:SS], followed by
    [.ffffff] when the microsecond is not 0. *)
Definition isoformat (t_us : Z) : string :=
  let days := (t_us / 86400000000)%Z in
  let secs := ((t_us mod 86400000000) / 1000000)%Z in
  let us := (t_us mod 1000000)%Z in
  let '(y, mo, d) := civil_from_days days in
  zero_pad 4 y ++ "-" ++ zero_pad 2 mo ++ "-" ++ zero_pad 2 d ++ "T" ++
  zero_pad 2 (secs / 3600) ++ ":" ++ zero_pad 2 ((secs mod 3600) / 60) ++ ":" ++
  zero_pad 2 (secs mod 60) ++
  (if Z.eqb us 0 then "" else "." ++ zero_pad 6 us).

(* ------------------------------------------------------------------ *)
(** ** JSON values as returned by [response.json()]

    Numbers are limited to integers. *)

Inductive json : Type :=
  | JNull
  | JBool (b : bool)
  | JNum (z : Z)
  | JStr (s : string)
  | JArr (l : list json)
  | JObj (kvs : list (string * json)).

(** Key lookup in a decoded JSON object; [json.loads] keeps the last of
    duplicated keys. *)
Fixpoint assoc_last (k : string) (kvs : list (string * json)) : option json :=
  match kvs with
  | [] => None
  | (k', v) :: rest =>
      match assoc_last k rest with
      | Some x => Some x
      | None => if String.eqb k k' then Some v else None
      end
  end.

(** Python truthiness of a decoded JSON value *)
Definition py_truthy (j : json) : bool :=
  match j with
  | JNull => false
  | JBool b => b
  | JNum z => negb (Z.eqb z 0)
  | JStr s => negb (String.eqb s "")
  | JArr l => negb (Nat.eqb (length l) 0)
  | JObj kvs => negb (Nat.eqb (length kvs) 0)
  end.

(** [repr] of a decoded JSON value (string escaping and the
    de-duplication of object keys are not modelled) *)
Fixpoint py_repr (j : json) : string :=
  match j with
  | JNull => "None"
  | JBool true => "True"
  | JBool false => "False"
  | JNum z => py_int_str z
  | JStr s => "'" ++ s ++ "'"
  | JArr l =>
      "[" ++ (fix go (l : list json) : string :=
                match l with
                | [] => ""
                | [x] => py_repr x
                | x :: r => py_repr x ++ ", " ++ go r
                end) l ++ "]"
  | JObj kvs =>
      "{" ++ (fix go (kvs : list (string * json)) : string :=
                match kvs with
                | [] => ""
                | [(k, v)] => "'" ++ k ++ "': " ++ py_repr v
                | (k, v) :: r => "'" ++ k ++ "': " ++ py_repr v ++ ", " ++ go r
                end) kvs ++ "}"
  end.

(** [str(v)] of a decoded JSON value *)
Definition py_str (j : json) : string :=
  match j with
  | JStr s => s
  | _ => py_repr j
  end.

(** [v == s] for a decoded JSON value [v] (or [None]) and a [str] [s] *)
Definition json_eq_str (o : option json) (s : string) : bool :=
  match o with
  | Some (JStr s') => String.eqb s' s
  | _ => false
  end.

(* ------------------------------------------------------------------ *)
(** ** Exceptions, the world and the effect monad *)

(** Exceptions that can cross the code: the [requests] hierarchy
    ([Timeout], [ConnectionError] and [JSONDecodeError] are
    [RequestException]s; since requests 2.27 its [JSONDecodeError] is
    also a [json.JSONDecodeError]) and any other Python error
    ([AttributeError], [KeyError], [TypeError], ...). *)
Inductive exn : Type :=
  | ReqTimeout (msg : string)
  | ReqConnectionError (msg : string)
  | ReqJSONDecodeError (msg : string)
  | ReqOtherError (msg : string)
  | PyError (msg : string).

Definition exn_str (e : exn) : string :=
  match e with
  | ReqTimeout m | ReqConnectionError m | ReqJSONDecodeError m
  | ReqOtherError m | PyError m => m
  end.

Definition is_request_exception (e : exn) : bool :=
  match e with PyError _ => false | _ => true end.

Definition is_json_decode_error (e : exn) : bool :=
  match e with ReqJSONDecodeError _ => true | _ => false end.

(** A [requests.Response]: [resp_json] is what [response.json()] gives,
    [inl msg] when the body is not JSON (it then raises). *)
Record response : Type := {
  status_code : Z;
  resp_json : string + json;
  resp_text : string;
  resp_content_type : string
}.

Inductive http_outcome : Type :=
  | HttpRaised (e : exn)
  | HttpResponse (r : response).

(** What [resolver.resolve(domain, 'TXT')] does: the answer ([str] of
    each rdata), or one of the failures the code tells apart. *)
Inductive dns_outcome : Type :=
  | DnsAnswer (rdatas : list string)
  | DnsNXDOMAIN
  | DnsNoAnswer
  | DnsTimeout
  | DnsFailure (msg : string).

(** An outbound network call: an HTTP GET with its headers, or a DNS
    TXT query. *)
Inductive call : Type :=
  | CallHttpGet (url : string) (headers : list (string * string))
  | CallDnsResolve (domain : string).

Record world : Type := {
  w_http_get : string -> list (string * string) -> http_outcome;
  w_resolve_txt : string -> dns_outcome;
  w_utcnow_us : Z;           (* datetime.utcnow(), microseconds since the epoch *)
  w_time_s : Z;              (* int(time.time()) *)
  w_token_hex16 : string;    (* secrets.token_hex(16) *)
  w_sha256_hexdigest : string -> string  (* hashlib.sha256(s.encode()).hexdigest() *)
}.

Inductive outcome (A : Type) : Type :=
  | Ok (a : A)
  | Raised (e : exn).
Arguments Ok {A} a.
Arguments Raised {A} e.

(** A computation reads the world and extends the call log. *)
Definition M (A : Type) : Type := world -> list call -> outcome A * list call.

Definition ret {A} (a : A) : M A := fun _ log => (Ok a, log).

Definition raise {A} (e : exn) : M A := fun _ log => (Raised e, log).

Definition bind {A B} (m : M A) (k : A -> M B) : M B :=
  fun w log =>
    match m w log with
    | (Ok a, log') => k a w log'
    | (Raised e, log') => (Raised e, log')
    end.

Notation "x <- m ;; k" := (bind m (fun x => k))
  (at level 99, m at level 98, right associativity).
(** [try: m except ...]: [handler e] is [None] when no clause matches
    and the exception propagates. *)
Definition try_except {A} (m : M A) (handler : exn -> option (M A)) : M A :=
  fun w log =>
    match m w log with
    | (Ok a, log') => (Ok a, log')
    | (Raised e, log') =>
        match handler e with
        | Some h => h w log'
        | None => (Raised e, log')
        end
    end.

(** [requests.get(url, headers=headers, ...)] *)
Definition http_get (url : string) (headers : list (string * string)) : M response :=
  fun w log =>
    let log' := app log [CallHttpGet url headers] in
    match w_http_get w url headers with
    | HttpRaised e => (Raised e, log')
    | HttpResponse r => (Ok r, log')
    end.

(** [response.json()] *)
Definition response_json (r : response) : M json :=
  match resp_json r with
  | inl msg => raise (ReqJSONDecodeError msg)
  | inr j => ret j
  end.

(** [resolver.resolve(domain, 'TXT')] *)
Definition resolve_txt (domain : string) : M dns_outcome :=
  fun w log => (Ok (w_resolve_txt w domain), app log [CallDnsResolve domain]).

Definition utcnow : M Z := fun w log => (Ok (w_utcnow_us w), log).
Definition time_time : M Z := fun w log => (Ok (w_time_s w), log).
Definition token_hex16 : M string := fun w log => (Ok (w_token_hex16 w), log).
Definition sha256_hexdigest (s : string) : M string :=
  fun w log => (Ok (w_sha256_hexdigest w s), log).

(** [type(v).__name__] of a decoded JSON value *)
Definition py_type_name (j : json) : string :=
  match j with
  | JNull => "NoneType"
  | JBool _ => "bool"
  | JNum _ => "int"
  | JStr _ => "str"
  | JArr _ => "list"
  | JObj _ => "dict"
  end.

(** [d.get(k)] on a decoded JSON value: an [AttributeError] unless it
    is an object; the message is what [str(e)] gives. *)
Definition dict_get (j : json) (k : string) : M (option json) :=
  match j with
  | JObj kvs => ret (assoc_last k kvs)
  | _ => raise (PyError ("'" ++ py_type_name j ++ "' object has no attribute 'get'"))
  end.

(** [d[k]] on a decoded JSON value, with the [str(e)] of the
    [KeyError] or [TypeError] it raises (Python 3.11) *)
Definition subscript (j : json) (k : string) : M json :=
  match j with
  | JObj kvs =>
      match assoc_last k kvs with
      | Some v => ret v
      | None => raise (PyError ("'" ++ k ++ "'"))
      end
  | JStr _ => raise (PyError "string indices must be integers, not 'str'")
  | JArr _ => raise (PyError "list indices must be integers or slices, not str")
  | _ => raise (PyError ("'" ++ py_type_name j ++ "' object is not subscriptable"))
  end.

(** A timestamp field: [StampAt t] is [t.isoformat() + "Z"] for the UTC
    instant [t] (microseconds since the epoch), which is never empty;
    [NoStamp] is the empty string. *)
Inductive stamp : Type :=
  | NoStamp
  | StampAt (t_us : Z).

(** [timedelta(days=365)] in microseconds *)
Definition validity_period_us : Z := 365 * 86400 * 1000000.

(** [if not s] for an optional string argument *)
Definition py_falsy_str (o : option string) : bool :=
  match o with
  | None => true
  | Some s => String.eqb s ""
  end.

(* ------------------------------------------------------------------ *)
(** ** [github-oauth-verifier.py] *)

Module GitHub.

Definition github_api_base : string := "https://api.github.com".

(** [@dataclass VerificationResult] *)
Record VerificationResult : Type := {
  success : bool;
  namespace : string;
  verification_method : string;
  verified_at : stamp;
  expires_at : stamp;
  verification_token : string;
  error_message : option string
}.

(** The second component of the [(bool, dict)] pairs returned by
    [verify_github_user] and [verify_github_organization]. *)
Inductive gh_data : Type :=
  | GhError (msg : string)             (* {"error": msg} *)
  | GhUser (user_data : json)          (* user_data *)
  | GhOrg (user_data org_data : json). (* {"user": .., "organization": .., "role": "member"} *)

(** [GitHubOAuthVerifier.generate_verification_token] *)
Definition generate_verification_token (ns : string) : M string :=
  timestamp <- time_time ;;
  rnd <- token_hex16 ;;
  sha256_hexdigest (ns ++ ":" ++ py_int_str timestamp ++ ":" ++ rnd).

Definition headers (oauth_token : string) : list (string * string) :=
  [("Authorization", "token " ++ oauth_token);
   ("Accept", "application/vnd.github.v3+json")].

(** [except requests.RequestException as e] *)
Definition request_failed (e : exn) : option (M (bool * gh_data)) :=
  if is_request_exception e
  then Some (ret (false, GhError ("Request failed: " ++ exn_str e)))
  else None.

(** [GitHubOAuthVerifier.verify_github_user] *)
Definition verify_github_user (username oauth_token : string) : M (bool * gh_data) :=
  try_except
    (response <- http_get (github_api_base ++ "/user") (headers oauth_token) ;;
     if negb (Z.eqb (status_code response) 200)
     then ret (false, GhError ("GitHub API error: " ++ py_int_str (status_code response)))
     else
       user_data <- response_json response ;;
       login <- dict_get user_data "login" ;;
       if negb (json_eq_str login username)
       then ret (false, GhError "Username mismatch")
       else
         active <- dict_get user_data "active" ;;
         if negb (py_truthy (match active with Some v => v | None => JBool true end))
         then ret (false, GhError "User account is not active")
         else ret (true, GhUser user_data))
    request_failed.

(** [GitHubOAuthVerifier.verify_github_organization] *)
Definition verify_github_organization (org_name oauth_token : string) : M (bool * gh_data) :=
  try_except
    (user_response <- http_get (github_api_base ++ "/user") (headers oauth_token) ;;
     if negb (Z.eqb (status_code user_response) 200)
     then ret (false, GhError ("GitHub API error: " ++ py_int_str (status_code user_response)))
     else
       user_data <- response_json user_response ;;
       login <- subscript user_data "login" ;;
       org_response <- http_get (github_api_base ++ "/orgs/" ++ org_name ++ "/members/" ++ py_str login)
                                (headers oauth_token) ;;
       if negb (Z.eqb (status_code org_response) 204)
       then ret (false, GhError "Not a member of the organization")
       else
         org_info_response <- http_get (github_api_base ++ "/orgs/" ++ org_name) (headers oauth_token) ;;
         if negb (Z.eqb (status_code org_info_response) 200)
         then ret (false, GhError ("Organization not found: " ++ org_name))
         else
           org_data <- response_json org_info_response ;;
           ret (true, GhOrg user_data org_data))
    request_failed.

(** [data.get("error", "Verification failed")] on a failed check: every
    failure carries an [{"error": ...}] dict. *)
Definition error_of (data : gh_data) : string :=
  match data with
  | GhError msg => msg
  | _ => "Verification failed"
  end.

(** [GitHubOAuthVerifier.verify_namespace] *)
Definition verify_namespace (ns oauth_token : string) : M VerificationResult :=
  if negb (startswith "io.github." ns)
  then ret {| success := false; namespace := ns; verification_method := "github-oauth";
              verified_at := NoStamp; expires_at := NoStamp; verification_token := "";
              error_message := Some "Invalid namespace format for GitHub OAuth verification" |}
  else
    let namespace_part := str_drop 10 ns in
    vtoken <- generate_verification_token ns ;;
    res <- (if contains_char "." namespace_part
            then verify_github_organization (before_char "." namespace_part) oauth_token
            else verify_github_user namespace_part oauth_token) ;;
    let '(ok, data) := res in
    if negb ok
    then ret {| success := false; namespace := ns; verification_method := "github-oauth";
                verified_at := NoStamp; expires_at := NoStamp; verification_token := vtoken;
                error_message := Some (error_of data) |}
    else
      now <- utcnow ;;
      ret {| success := true; namespace := ns; verification_method := "github-oauth";
             verified_at := StampAt now; expires_at := StampAt (now + validity_period_us);
             verification_token := vtoken; error_message := None |}.


(** [GitHubOAuthVerifier.verify_token_validity] *)
Definition verify_token_validity (vtoken ns : string) : M bool :=
  if String.eqb vtoken "" || negb (Nat.eqb (String.length vtoken) 64) then ret false
  else
    digest <- sha256_hexdigest ns ;;
    let expected_pattern := substring 0 16 digest in
    ret (endswith expected_pattern vtoken).

End GitHub.

(* ------------------------------------------------------------------ *)
(** ** [dns-txt-verifier.py] *)

Module Dns.

Definition txt_record_prefix : string := "mcp-registry-verification".

(** [@dataclass DNSVerificationResult] *)
Record DNSVerificationResult : Type := {
  success : bool;
  namespace : string;
  domain : string;
  verification_method : string;
  verified_at : stamp;
  expires_at : stamp;
  verification_token : string;
  txt_records : list string;
  error_message : option string
}.

(** [DnsTxtVerifier.extract_domain_from_namespace] *)
Definition extract_domain_from_namespace (ns : string) : option string :=
  if startswith "com." ns then Some (str_drop 4 ns)
  else if startswith "org." ns then Some (str_drop 4 ns)
  else if startswith "net." ns then Some (str_drop 4 ns)
  else None.

(** [DnsTxtVerifier.generate_verification_token] *)
Definition generate_verification_token (dom : string) : M string :=
  timestamp <- time_time ;;
  rnd <- token_hex16 ;;
  sha256_hexdigest (dom ++ ":" ++ py_int_str timestamp ++ ":" ++ rnd).

(** [DnsTxtVerifier.get_txt_records]: [(success, txt_records, error)] *)
Definition get_txt_records (dom : string) : M (bool * list string * option string) :=
  answer <- resolve_txt dom ;;
  ret (match answer with
       | DnsAnswer rdatas => (true, map strip_dquotes rdatas, None)
       | DnsNXDOMAIN => (false, [], Some ("Domain " ++ dom ++ " does not exist"))
       | DnsNoAnswer => (false, [], Some ("No TXT records found for " ++ dom))
       | DnsTimeout => (false, [], Some ("DNS query timeout for " ++ dom))
       | DnsFailure msg => (false, [], Some ("DNS query failed: " ++ msg))
       end).

(** The loop of [verify_txt_record]: is some record accepted? *)
Fixpoint scan_records (expected_token : string) (records : list string) : bool :=
  let expected_record := txt_record_prefix ++ "=" ++ expected_token in
  match records with
  | [] => false
  | record :: rest =>
      if (String.eqb record expected_record
          || startswith (txt_record_prefix ++ "=") record)
         && String.eqb (if contains_char "=" record then after_char "=" record else "")
                       expected_token
      then true
      else scan_records expected_token rest
  end.

(** [DnsTxtVerifier.verify_txt_record] *)
Definition verify_txt_record (dom expected_token : string)
  : M (bool * list string * option string) :=
  r <- get_txt_records dom ;;
  let '(ok, records, err) := r in
  if negb ok then ret (false, [], err)
  else
    let expected_record := txt_record_prefix ++ "=" ++ expected_token in
    if scan_records expected_token records
    then ret (true, records, None)
    else ret (false, records,
              Some ("Verification TXT record not found. Expected: " ++ expected_record)).

Definition failure (ns dom vtoken : string) (records : list string) (err : option string)
  : DNSVerificationResult :=
  {| success := false; namespace := ns; domain := dom; verification_method := "dns-txt";
     verified_at := NoStamp; expires_at := NoStamp; verification_token := vtoken;
     txt_records := records; error_message := err |}.

(** [DnsTxtVerifier.verify_namespace] *)
Definition verify_namespace (ns vtoken : string) : M DNSVerificationResult :=
  match extract_domain_from_namespace ns with
  | None => ret (failure ns "" vtoken [] (Some "Invalid namespace format for DNS TXT verification"))
  | Some dom =>
    if String.eqb dom "" then
      ret (failure ns "" vtoken [] (Some "Invalid namespace format for DNS TXT verification"))
    else
      r1 <- get_txt_records dom ;;
      let '(ok, _, err) := r1 in
      if negb ok then ret (failure ns dom vtoken [] err)
      else
        r2 <- verify_txt_record dom vtoken ;;
        let '(token_ok, final_records, token_err) := r2 in
        if negb token_ok then ret (failure ns dom vtoken final_records token_err)
        else
          now <- utcnow ;;
          ret {| success := true; namespace := ns; domain := dom; verification_method := "dns-txt";
                 verified_at := StampAt now; expires_at := StampAt (now + validity_period_us);
                 verification_token := vtoken; txt_records := final_records;
                 error_message := None |}
  end.


(** The dict [{"error": msg}] *)
Definition error_dict (msg : string) : json := JObj [("error", JStr msg)].

(** [DnsTxtVerifier.generate_verification_instructions] *)
Definition generate_verification_instructions (ns : string) : M json :=
  match extract_domain_from_namespace ns with
  | None => ret (error_dict "Invalid namespace format")
  | Some dom =>
    if String.eqb dom "" then ret (error_dict "Invalid namespace format")
    else
      vtoken <- generate_verification_token dom ;;
      let txt_record := txt_record_prefix ++ "=" ++ vtoken in
      ret (JObj
        [("namespace", JStr ns);
         ("domain", JStr dom);
         ("verification_token", JStr vtoken);
         ("txt_record", JStr txt_record);
         ("instructions", JObj
            [("step1", JStr ("Add the following TXT record to your domain " ++ dom ++ ":"));
             ("step2", JStr "Record type: TXT");
             ("step3", JStr ("Record name: " ++ dom));
             ("step4", JStr ("Record value: " ++ txt_record));
             ("step5", JStr "Wait for DNS propagation (usually 5-60 minutes)");
             ("step6", JStr ("Run verification with: python dns-txt-verifier.py " ++ ns ++ " " ++ vtoken))]);
         ("dns_commands", JObj
            [("bind", JStr ("TXT " ++ dq dom ++ " " ++ dq txt_record));
             ("route53", JStr "aws route53 change-resource-record-sets --hosted-zone-id YOUR_ZONE_ID --change-batch file://change.json");
             ("cloudflare", JStr "Use Cloudflare DNS management to add TXT record");
             ("google", JStr "Use Google Cloud DNS to add TXT record")])])
  end.

End Dns.

(* ------------------------------------------------------------------ *)
(** ** [http-well-known-verifier.py] *)

Module Http.

Definition well_known_path : string := "/.well-known/mcp-registry-auth".

(** [@dataclass HTTPVerificationResult] *)
Record HTTPVerificationResult : Type := {
  success : bool;
  namespace : string;
  domain : string;
  verification_method : string;
  verified_at : stamp;
  expires_at : stamp;
  verification_token : string;
  endpoint_url : string;
  http_status : Z;
  response_content : string;
  error_message : option string
}.

(** The dict returned by [fetch_verification_endpoint] on success;
    [content] is the decoded JSON, or the stripped text as a [str]. *)
Record fetch_data : Type := {
  url : string;
  fetched_status : Z;
  content : json;
  content_type : string
}.

(** [HttpWellKnownVerifier.extract_domain_from_namespace] *)
Definition extract_domain_from_namespace (ns : string) : option string :=
  if startswith "com." ns then Some (str_drop 4 ns)
  else if startswith "org." ns then Some (str_drop 4 ns)
  else if startswith "net." ns then Some (str_drop 4 ns)
  else None.

(** [HttpWellKnownVerifier.build_endpoint_url] *)
Definition build_endpoint_url (dom : string) (use_https : bool) : string :=
  (if use_https then "https" else "http") ++ "://" ++ dom ++ well_known_path.

Definition request_headers : list (string * string) :=
  [("User-Agent", "MCP-Registry-Verifier/1.0");
   ("Accept", "text/plain, application/json")].

Definition unreachable_msg : string :=
  "Unable to fetch verification endpoint from either HTTP or HTTPS".

(** One iteration of the [for url in urls_to_try] loop: [Some data]
    returns, [None] continues with the next URL. *)
Definition try_url (u : string) : M (option fetch_data) :=
  try_except
    (response <- http_get u request_headers ;;
     if Z.eqb (status_code response) 200
     then
       try_except
         (c <- response_json response ;;
          ret (Some {| url := u; fetched_status := status_code response; content := c;
                       content_type := resp_content_type response |}))
         (fun e => if is_json_decode_error e
                   then Some (ret (Some {| url := u; fetched_status := status_code response;
                                           content := JStr (py_strip (resp_text response));
                                           content_type := resp_content_type response |}))
                   else None)
     else ret None)
    (fun e => if is_request_exception e then Some (ret None) else None).

Fixpoint fetch_loop (urls : list string) : M (bool * option fetch_data * option string) :=
  match urls with
  | [] => ret (false, None, Some unreachable_msg)
  | u :: rest =>
      r <- try_url u ;;
      match r with
      | Some data => ret (true, Some data, None)
      | None => fetch_loop rest
      end
  end.

(** [HttpWellKnownVerifier.fetch_verification_endpoint]; the empty dict
    of the failure case is [None]. *)
Definition fetch_verification_endpoint (dom : string) : M (bool * option fetch_data * option string) :=
  fetch_loop [build_endpoint_url dom true; build_endpoint_url dom false].

(** [HttpWellKnownVerifier.verify_token_in_response] *)
Definition verify_token_in_response (data : fetch_data) (expected_token : string) : bool :=
  match content data with
  | JObj kvs =>
      json_eq_str (assoc_last "token" kvs) expected_token
      || json_eq_str (assoc_last "verification_token" kvs) expected_token
      || json_eq_str (assoc_last "mcp_registry_token" kvs) expected_token
      || json_eq_str (assoc_last "auth_token" kvs) expected_token
  | JStr s => String.eqb (py_strip s) expected_token
  | _ => false
  end.

Definition failure (ns dom vtoken url : string) (status : Z) (body : string) (err : option string)
  : HTTPVerificationResult :=
  {| success := false; namespace := ns; domain := dom; verification_method := "http-well-known";
     verified_at := NoStamp; expires_at := NoStamp; verification_token := vtoken;
     endpoint_url := url; http_status := status; response_content := body;
     error_message := err |}.

(** [HttpWellKnownVerifier.verify_namespace] *)
Definition verify_namespace (ns vtoken : string) : M HTTPVerificationResult :=
  match extract_domain_from_namespace ns with
  | None => ret (failure ns "" vtoken "" 0 "" (Some "Invalid namespace format for HTTP verification"))
  | Some dom =>
    if String.eqb dom "" then
      ret (failure ns "" vtoken "" 0 "" (Some "Invalid namespace format for HTTP verification"))
    else
      r <- fetch_verification_endpoint dom ;;
      match r with
      | (true, Some data, _) =>
          if negb (verify_token_in_response data vtoken)
          then ret (failure ns dom vtoken (url data) (fetched_status data) (py_str (content data))
                      (Some ("Verification token not found in response from " ++ url data)))
          else
            now <- utcnow ;;
            ret {| success := true; namespace := ns; domain := dom;
                   verification_method := "http-well-known";
                   verified_at := StampAt now; expires_at := StampAt (now + validity_period_us);
                   verification_token := vtoken; endpoint_url := url data;
                   http_status := fetched_status data; response_content := py_str (content data);
                   error_message := None |}
      | (_, _, err) => ret (failure ns dom vtoken "" 0 "" err)
      end
  end.


(** [HttpWellKnownVerifier.generate_verification_token] *)
Definition generate_verification_token (dom : string) : M string :=
  timestamp <- time_time ;;
  rnd <- token_hex16 ;;
  sha256_hexdigest (dom ++ ":" ++ py_int_str timestamp ++ ":" ++ rnd).

(** [HttpWellKnownVerifier.generate_verification_instructions]; the
    dict literal calls [datetime.utcnow()] twice, for [step7] and for
    [created_at] (the world answers both calls with the same instant). *)
Definition generate_verification_instructions (ns : string) : M json :=
  match extract_domain_from_namespace ns with
  | None => ret (Dns.error_dict "Invalid namespace format")
  | Some dom =>
    if String.eqb dom "" then ret (Dns.error_dict "Invalid namespace format")
    else
      vtoken <- generate_verification_token dom ;;
      let endpoint_url := build_endpoint_url dom true in
      now1 <- utcnow ;;
      now2 <- utcnow ;;
      ret (JObj
        [("namespace", JStr ns);
         ("domain", JStr dom);
         ("verification_token", JStr vtoken);
         ("endpoint_url", JStr endpoint_url);
         ("instructions", JObj
            [("step1", JStr ("Create a file at: " ++ dom ++ "/.well-known/mcp-registry-auth"));
             ("step2", JStr "Add the following content to the file:");
             ("step3", JStr "Content (JSON format):");
             ("step4", JStr "{");
             ("step5", JStr ("  " ++ dq "token" ++ ": " ++ dq vtoken ++ ","));
             ("step6", JStr ("  " ++ dq "namespace" ++ ": " ++ dq ns ++ ","));
             ("step7", JStr ("  " ++ dq "created_at" ++ ": " ++ dq (isoformat now1 ++ "Z")));
             ("step8", JStr "}");
             ("step9", JStr ("Alternative (plain text): " ++ vtoken));
             ("step10", JStr "Ensure the file is accessible via HTTP and HTTPS");
             ("step11", JStr ("Run verification with: python http-well-known-verifier.py " ++ ns ++ " " ++ vtoken))]);
         ("file_examples", JObj
            [("json_example", JObj
                [("token", JStr vtoken);
                 ("namespace", JStr ns);
                 ("created_at", JStr (isoformat now2 ++ "Z"))]);
             ("txt_example", JStr vtoken)]);
         ("web_server_configs", JObj
            [("nginx", JStr ("location /.well-known/mcp-registry-auth { return 200 '" ++ vtoken ++
                             "'; add_header Content-Type text/plain; }"));
             ("apache", JStr ("<Location /.well-known/mcp-registry-auth>" ++ nl ++
                              "    Header set Content-Type &quot;text/plain&quot;" ++ nl ++
                              "    Require all granted" ++ nl ++ "</Location>" ++ nl ++
                              "# File content: " ++ vtoken));
             ("express", JStr ("app.get('/.well-known/mcp-registry-auth', (req, res) => res.send('" ++
                               vtoken ++ "'));"));
             ("python_flask", JStr ("@app.route('/.well-known/mcp-registry-auth')" ++ nl ++
                                    "def verification():" ++ nl ++ "    return '" ++ vtoken ++
                                    "', 200, {'Content-Type': 'text/plain'}"))])])
  end.

End Http.

(* ------------------------------------------------------------------ *)
(** ** [verification-system.py] *)

Module Dispatcher.

(** [class VerificationMethod(Enum)] *)
Inductive VerificationMethod : Type :=
  | GITHUB_OAUTH
  | DNS_TXT
  | HTTP_WELL_KNOWN.

Definition value (m : VerificationMethod) : string :=
  match m with
  | GITHUB_OAUTH => "github-oauth"
  | DNS_TXT => "dns-txt"
  | HTTP_WELL_KNOWN => "http-well-known"
  end.

(** [details]: [{}] or [asdict(result)] of the delegate's result *)
Inductive details_t : Type :=
  | NoDetails
  | GitHubDetails (r : GitHub.VerificationResult)
  | DnsDetails (r : Dns.DNSVerificationResult)
  | HttpDetails (r : Http.HTTPVerificationResult).

(** [@dataclass NamespaceVerification] *)
Record NamespaceVerification : Type := {
  namespace : string;
  verification_method : string;
  success : bool;
  verified_at : stamp;
  expires_at : stamp;
  verification_token : string;
  details : details_t;
  error_message : option string
}.

(** The three delegate verifiers held by [MCPVerificationSystem]
    ([self.github_verifier], [self.dns_verifier], [self.http_verifier]),
    through their [verify_namespace] methods. *)
Record verifiers : Type := {
  github_verifier : string -> string -> M GitHub.VerificationResult;
  dns_verifier : string -> string -> M Dns.DNSVerificationResult;
  http_verifier : string -> string -> M Http.HTTPVerificationResult
}.

(** The verifiers built by [MCPVerificationSystem.__init__] *)
Definition default_verifiers : verifiers :=
  {| github_verifier := GitHub.verify_namespace;
     dns_verifier := Dns.verify_namespace;
     http_verifier := Http.verify_namespace |}.

(** [MCPVerificationSystem.determine_verification_method] *)
Definition determine_verification_method (ns : string) : option VerificationMethod :=
  if startswith "io.github." ns then Some GITHUB_OAUTH
  else if startswith "com." ns || startswith "org." ns || startswith "net." ns
  then Some DNS_TXT
  else None.

Definition failed (ns method msg : string) : NamespaceVerification :=
  {| namespace := ns; verification_method := method; success := false;
     verified_at := NoStamp; expires_at := NoStamp; verification_token := "";
     details := NoDetails; error_message := Some msg |}.

Definition of_github (r : GitHub.VerificationResult) : NamespaceVerification :=
  {| namespace := GitHub.namespace r; verification_method := GitHub.verification_method r;
     success := GitHub.success r; verified_at := GitHub.verified_at r;
     expires_at := GitHub.expires_at r; verification_token := GitHub.verification_token r;
     details := GitHubDetails r; error_message := GitHub.error_message r |}.

Definition of_dns (r : Dns.DNSVerificationResult) : NamespaceVerification :=
  {| namespace := Dns.namespace r; verification_method := Dns.verification_method r;
     success := Dns.success r; verified_at := Dns.verified_at r;
     expires_at := Dns.expires_at r; verification_token := Dns.verification_token r;
     details := DnsDetails r; error_message := Dns.error_message r |}.

Definition of_http (r : Http.HTTPVerificationResult) : NamespaceVerification :=
  {| namespace := Http.namespace r; verification_method := Http.verification_method r;
     success := Http.success r; verified_at := Http.verified_at r;
     expires_at := Http.expires_at r; verification_token := Http.verification_token r;
     details := HttpDetails r; error_message := Http.error_message r |}.

(** The body of the [try:] block of [verify_namespace], for the method
    [method] found by [determine_verification_method]. *)
Definition verify_with_method (vs : verifiers) (ns : string) (method : VerificationMethod)
    (vtoken oauth_token : option string) : M NamespaceVerification :=
  match method with
  | GITHUB_OAUTH =>
      match oauth_token with
      | Some o =>
          if String.eqb o "" then ret (failed ns (value method) "OAuth token required for GitHub verification")
          else r <- github_verifier vs ns o ;; ret (of_github r)
      | None => ret (failed ns (value method) "OAuth token required for GitHub verification")
      end
  | DNS_TXT =>
      match vtoken with
      | Some t =>
          if String.eqb t "" then ret (failed ns (value method) "Verification token required for DNS verification")
          else r <- dns_verifier vs ns t ;; ret (of_dns r)
      | None => ret (failed ns (value method) "Verification token required for DNS verification")
      end
  | HTTP_WELL_KNOWN =>
      match vtoken with
      | Some t =>
          if String.eqb t "" then ret (failed ns (value method) "Verification token required for HTTP verification")
          else r <- http_verifier vs ns t ;; ret (of_http r)
      | None => ret (failed ns (value method) "Verification token required for HTTP verification")
      end
  end.

(** [MCPVerificationSystem.verify_namespace] *)
Definition verify_namespace (vs : verifiers) (ns : string) (vtoken oauth_token : option string)
  : M NamespaceVerification :=
  match determine_verification_method ns with
  | None => ret (failed ns "none" "Unsupported namespace format")
  | Some method =>
      try_except (verify_with_method vs ns method vtoken oauth_token)
        (fun e => Some (ret (failed ns (value method) ("Verification system error: " ++ exn_str e))))
  end.

(** [tokens.get(namespace) if tokens else None] *)
Definition lookup_token (tokens : option (gmap string string)) (ns : string) : option string :=
  match tokens with
  | None => None
  | Some t => if decide (t = ∅) then None else t !! ns
  end.

(** [MCPVerificationSystem.batch_verify] *)
Fixpoint batch_verify (vs : verifiers) (namespaces : list string)
    (tokens : option (gmap string string)) (oauth_token : option string)
  : M (list NamespaceVerification) :=
  match namespaces with
  | [] => ret []
  | ns :: rest =>
      result <- verify_namespace vs ns (lookup_token tokens ns) oauth_token ;;
      results <- batch_verify vs rest tokens oauth_token ;;
      ret (result :: results)
  end.


(** The [if method == ...] chain of [generate_verification_setup], for
    the method name [method] *)
Definition setup_for_method (ns method : string) : M json :=
  if String.eqb method (value GITHUB_OAUTH) then
    token <- GitHub.generate_verification_token ns ;;
    ret (JObj
      [("namespace", JStr ns);
       ("method", JStr method);
       ("verification_token", JStr token);
       ("instructions", JObj
          [("step1", JStr "Use GitHub OAuth to verify ownership");
           ("step2", JStr ("Run: python verification-system.py " ++ ns ++ " --github-oauth"));
           ("step3", JStr "Provide your GitHub OAuth token when prompted")])])
  else if String.eqb method (value DNS_TXT) then Dns.generate_verification_instructions ns
  else if String.eqb method (value HTTP_WELL_KNOWN) then Http.generate_verification_instructions ns
  else ret (Dns.error_dict "Unsupported verification method").

(** [MCPVerificationSystem.generate_verification_setup] *)
Definition generate_verification_setup (ns : string) (method : option string) : M json :=
  let determined :=
    match determine_verification_method ns with
    | None => ret (Dns.error_dict "Unsupported namespace format")
    | Some m => setup_for_method ns (value m)
    end in
  match method with
  | Some m => if String.eqb m "" then determined else setup_for_method ns m
  | None => determined
  end.

End Dispatcher.

(* ------------------------------------------------------------------ *)
(** ** Definitions used to state the properties *)

(** [post m P]: every value [m] returns normally satisfies [P]. *)
Definition post {A} (m : M A) (P : A -> Prop) : Prop :=
  forall w log, match fst (m w log) with Ok a => P a | Raised _ => True end.

(** [frame m]: [m] does not look at the log it is run from: running it
    appends the same calls and returns the same value whatever came
    before (the Python code has no access to earlier requests). *)
Definition frame {A} (m : M A) : Prop :=
  forall w log, m w log = (fst (m w []), app log (snd (m w []))).

(** The delegates of [vs] do not depend on earlier calls. *)
Definition frame_verifiers (vs : Dispatcher.verifiers) : Prop :=
  (forall ns o, frame (Dispatcher.github_verifier vs ns o)) /\
  (forall ns t, frame (Dispatcher.dns_verifier vs ns t)) /\
  (forall ns t, frame (Dispatcher.http_verifier vs ns t)).

(** The invariant of a verification result: a success carries no error
    and a validity window of exactly 365 days; a failure carries empty
    timestamps and a non-empty error message. *)
Definition result_invariant (ok : bool) (va ea : stamp) (err : option string) : Prop :=
  if ok then err = None /\ exists t, va = StampAt t /\ ea = StampAt (t + 365 * 24 * 3600 * 1000000)
  else va = NoStamp /\ ea = NoStamp /\ exists m, err = Some m /\ m <> "".

Definition github_result_invariant (r : GitHub.VerificationResult) : Prop :=
  result_invariant (GitHub.success r) (GitHub.verified_at r) (GitHub.expires_at r) (GitHub.error_message r).

Definition dns_result_invariant (r : Dns.DNSVerificationResult) : Prop :=
  result_invariant (Dns.success r) (Dns.verified_at r) (Dns.expires_at r) (Dns.error_message r).

Definition http_result_invariant (r : Http.HTTPVerificationResult) : Prop :=
  result_invariant (Http.success r) (Http.verified_at r) (Http.expires_at r) (Http.error_message r).

Definition dispatcher_result_invariant (r : Dispatcher.NamespaceVerification) : Prop :=
  result_invariant (Dispatcher.success r) (Dispatcher.verified_at r) (Dispatcher.expires_at r)
    (Dispatcher.error_message r).

(** [vs] with its HTTP delegate replaced by [h] *)
Definition with_http_verifier (vs : Dispatcher.verifiers)
    (h : string -> string -> M Http.HTTPVerificationResult) : Dispatcher.verifiers :=
  {| Dispatcher.github_verifier := Dispatcher.github_verifier vs;
     Dispatcher.dns_verifier := Dispatcher.dns_verifier vs;
     Dispatcher.http_verifier := h |}.

(** The spec's reading of one fetch attempt: it fails on a [requests]
    exception (a timeout, a connection error, ...) or on a status other
    than 200. *)
Definition http_attempt_fails (o : http_outcome) : bool :=
  match o with
  | HttpRaised e => is_request_exception e
  | HttpResponse r => negb (Z.eqb (status_code r) 200)
  end.

(** What a 200 response [r] from [u] is read as: its JSON body, or its
    stripped text when the body is not JSON. *)
Definition fetched_body (u : string) (r : response) : Http.fetch_data :=
  {| Http.url := u; Http.fetched_status := status_code r;
     Http.content := match resp_json r with
                     | inr j => j
                     | inl _ => JStr (py_strip (resp_text r))
                     end;
     Http.content_type := resp_content_type r |}.

(** The fields [verify_token_in_response] looks at in a JSON object *)
Definition token_fields : list string :=
  ["token"; "verification_token"; "mcp_registry_token"; "auth_token"].

(** The calls the GitHub verifier makes: GETs of the GitHub API with the
    credential's headers. *)
Definition github_api_call (oauth_token : string) (c : call) : Prop :=
  exists path, c = CallHttpGet (GitHub.github_api_base ++ path) (GitHub.headers oauth_token).

(** [s] does not start with a character [f] strips *)
Definition hd_kept (f : ascii -> bool) (s : string) : Prop :=
  match s with
  | EmptyString => True
  | String c _ => f c = false
  end.

(** A lowercase hexadecimal digit *)
Definition is_lower_hex (c : ascii) : bool :=
  let n := nat_of_ascii c in
  ((48 <=? n) && (n <=? 57))%nat || ((97 <=? n) && (n <=? 102))%nat.

Fixpoint all_chars (f : ascii -> bool) (s : string) : bool :=
  match s with
  | EmptyString => true
  | String c s' => f c && all_chars f s'
  end.

(** The shape of [hashlib.sha256(...).hexdigest()]: 64 lowercase
    hexadecimal digits *)
Definition hexdigest_shaped (s : string) : bool :=
  Nat.eqb (String.length s) 64 && all_chars is_lower_hex s.

(** ** Sample worlds *)

Definition quoted (s : string) : string := String dquote (s ++ String dquote EmptyString).

Definition json_response (code : Z) (j : json) : response :=
  {| status_code := code; resp_json := inr j; resp_text := py_repr j;
     resp_content_type := "application/json" |}.

Definition text_response (code : Z) (body : string) : response :=
  {| status_code := code; resp_json := inl "Expecting value: line 1 column 1 (char 0)";
     resp_text := body; resp_content_type := "text/plain" |}.

Definition no_http (u : string) : http_outcome :=
  HttpRaised (ReqConnectionError "Connection refused").

Definition no_dns (d : string) : dns_outcome := DnsNXDOMAIN.

Definition sample_world (http : string -> http_outcome) (dns : string -> dns_outcome) : world :=
  {| w_http_get := fun u _ => http u;
     w_resolve_txt := dns;
     w_utcnow_us := 1700000000000000;
     w_time_s := 1700000000;
     w_token_hex16 := "0123456789abcdef0123456789abcdef";
     w_sha256_hexdigest := fun _ => "9f86d081884c7d659a2feaa0c55ad015a3bf4f1b2b0b822cd15d6c15b0f00a08" |}.

Definition sample_txt_records : list string :=
  ["mcp-registry-verification=abc123..."; "other-record"].

(** A resolver answering [example.com] with two TXT records, quoted as
    [str(rdata)] gives them. *)
Definition dns_sample_world : world :=
  sample_world no_http
    (fun d => if String.eqb d "example.com" then DnsAnswer (map quoted sample_txt_records)
              else DnsNXDOMAIN).

(** The domain [example] (the one of [com.example]) serves [body] over
    HTTP only; HTTPS is refused. *)
Definition http_only_world (body : response) : world :=
  sample_world
    (fun u => if String.eqb u "http://example/.well-known/mcp-registry-auth"
              then HttpResponse body else no_http u)
    no_dns.

(** GitHub: the credential belongs to [alice], an active account. *)
Definition github_user_world : world :=
  sample_world
    (fun u => if String.eqb u "https://api.github.com/user"
              then HttpResponse (json_response 200 (JObj [("login", JStr "alice"); ("active", JBool true)]))
              else HttpResponse (json_response 404 (JObj [("message", JStr "Not Found")])))
    no_dns.

(** GitHub: the credential belongs to [mallory], an inactive account that
    is a member of the organisation [acme]. *)
Definition github_inactive_member_world : world :=
  sample_world
    (fun u => if String.eqb u "https://api.github.com/user"
              then HttpResponse (json_response 200 (JObj [("login", JStr "mallory"); ("active", JBool false)]))
              else if String.eqb u "https://api.github.com/orgs/acme/members/mallory"
              then HttpResponse (text_response 204 "")
              else if String.eqb u "https://api.github.com/orgs/acme"
              then HttpResponse (json_response 200 (JObj [("login", JStr "acme")]))
              else HttpResponse (json_response 404 (JObj [("message", JStr "Not Found")])))
    no_dns.

(** GitHub: [/user] answers 200 with a JSON list instead of an object. *)
Definition github_list_body_world : world :=
  sample_world
    (fun u => if String.eqb u "https://api.github.com/user"
              then HttpResponse (json_response 200 (JArr []))
              else HttpResponse (json_response 404 (JObj [("message", JStr "Not Found")])))
    no_dns.

(* ------------------------------------------------------------------ *)
(** * Properties *)

(** ** String lemmas *)

Lemma startswith_spec (p s : string) :
  startswith p s = true <-> exists r, s = (p ++ r)%string.
Proof.
  revert s; induction p as [|c p IH]; intros s; simpl.
  - split; [intros _; exists s; reflexivity | reflexivity].
  - destruct s as [|d s]; simpl.
    + split; [discriminate | intros [r H]; discriminate].
    + rewrite andb_true_iff, Ascii.eqb_eq, IH. split.
      * intros [-> [r ->]]. exists r. reflexivity.
      * intros [r Hr]. injection Hr as -> ->. split; [reflexivity | exists r; reflexivity].
Qed.

Lemma startswith_app (p r : string) : startswith p (p ++ r) = true.
Proof. apply startswith_spec. exists r. reflexivity. Qed.

Lemma startswith_false (p s : string) :
  startswith p s = false <-> forall r, s <> (p ++ r)%string.
Proof.
  rewrite <- not_true_iff_false, startswith_spec. split.
  - intros H r E. apply H. exists r. exact E.
  - intros H [r E]. exact (H r E).
Qed.

Lemma str_drop_app (p r : string) : str_drop (String.length p) (p ++ r) = r.
Proof. induction p; simpl; auto. Qed.

(** ** Reasoning about computations *)


Lemma run_bind {A B} (m : M A) (k : A -> M B) w log :
  bind m k w log =
  match m w log with
  | (Ok a, log') => k a w log'
  | (Raised e, log') => (Raised e, log')
  end.
Proof. reflexivity. Qed.

Lemma post_ret {A} (a : A) (P : A -> Prop) : P a -> post (ret a) P.
Proof. intros H w log. exact H. Qed.

Lemma post_raise {A} (e : exn) (P : A -> Prop) : post (raise e) P.
Proof. intros w log. exact I. Qed.

Lemma post_bind {A B} (m : M A) (k : A -> M B) (Q : A -> Prop) (P : B -> Prop) :
  post m Q -> (forall a, Q a -> post (k a) P) -> post (bind m k) P.
Proof.
  intros Hm Hk w log. specialize (Hm w log). unfold bind.
  destruct (m w log) as [[a|e] log']; simpl in *; [exact (Hk a Hm w log') | exact I].
Qed.

Lemma post_bind_any {A B} (m : M A) (k : A -> M B) (P : B -> Prop) :
  (forall a, post (k a) P) -> post (bind m k) P.
Proof.
  intros Hk. apply (post_bind m k (fun _ => True)); [intros w log; destruct (fst (m w log)); exact I | auto].
Qed.

Lemma post_try {A} (m : M A) (h : exn -> option (M A)) (P : A -> Prop) :
  post m P ->
  (forall e, match h e with Some k => post k P | None => True end) ->
  post (try_except m h) P.
Proof.
  intros Hm Hh w log. specialize (Hm w log). unfold try_except.
  destruct (m w log) as [[a|e] log']; simpl in *; [exact Hm|].
  specialize (Hh e). destruct (h e) as [k|]; [exact (Hh w log') | exact I].
Qed.

Ltac post_step :=
  match goal with
  | |- post (ret _) _ => apply post_ret
  | |- post (raise _) _ => apply post_raise
  | |- post (try_except _ _) _ => apply post_try; [ | intros ?e ]
  | |- post (bind _ _) _ => apply post_bind_any; intros ?a
  | |- post (match ?x with _ => _ end) _ => destruct x eqn:?
  | |- match (if ?b then _ else _) with _ => _ end => destruct b eqn:?
  | |- match ?x with _ => _ end => destruct x eqn:?
  | |- True => exact I
  end.


Lemma frame_ret {A} (a : A) : frame (ret a).
Proof. intros w log. unfold ret. simpl. rewrite app_nil_r. reflexivity. Qed.

Lemma frame_raise {A} (e : exn) : @frame A (raise e).
Proof. intros w log. unfold raise. simpl. rewrite app_nil_r. reflexivity. Qed.

Lemma frame_bind {A B} (m : M A) (k : A -> M B) :
  frame m -> (forall a, frame (k a)) -> frame (bind m k).
Proof.
  intros Hm Hk w log. unfold bind. rewrite (Hm w log).
  destruct (m w []) as [[a|e] l]; simpl.
  - rewrite (Hk a w (app log l)), (Hk a w l). simpl. rewrite app_assoc. reflexivity.
  - reflexivity.
Qed.

Lemma frame_try {A} (m : M A) (h : exn -> option (M A)) :
  frame m -> (forall e, match h e with Some k => frame k | None => True end) ->
  frame (try_except m h).
Proof.
  intros Hm Hh w log. unfold try_except. rewrite (Hm w log).
  destruct (m w []) as [[a|e] l]; simpl; [reflexivity|].
  specialize (Hh e). destruct (h e) as [k|]; simpl; [|reflexivity].
  rewrite (Hh w (app log l)), (Hh w l). simpl. rewrite app_assoc. reflexivity.
Qed.

Lemma frame_http_get u hs : frame (http_get u hs).
Proof. intros w log. unfold http_get. destruct (w_http_get w u hs); reflexivity. Qed.

Lemma frame_resolve_txt d : frame (resolve_txt d).
Proof. intros w log. reflexivity. Qed.

Lemma frame_utcnow : frame utcnow.
Proof. intros w log. unfold utcnow. simpl. rewrite app_nil_r. reflexivity. Qed.

Lemma frame_time_time : frame time_time.
Proof. intros w log. unfold time_time. simpl. rewrite app_nil_r. reflexivity. Qed.

Lemma frame_token_hex16 : frame token_hex16.
Proof. intros w log. unfold token_hex16. simpl. rewrite app_nil_r. reflexivity. Qed.

Lemma frame_sha256_hexdigest s : frame (sha256_hexdigest s).
Proof. intros w log. unfold sha256_hexdigest. simpl. rewrite app_nil_r. reflexivity. Qed.

Lemma frame_response_json r : frame (response_json r).
Proof. unfold response_json. destruct (resp_json r); [apply frame_raise | apply frame_ret]. Qed.

Lemma frame_dict_get j k : frame (dict_get j k).
Proof. unfold dict_get. destruct j; first [apply frame_raise | apply frame_ret]. Qed.

Lemma frame_subscript j k : frame (subscript j k).
Proof.
  unfold subscript. destruct j; try apply frame_raise.
  destruct (assoc_last k kvs); [apply frame_ret | apply frame_raise].
Qed.

Create HintDb frames.
#[export] Hint Resolve frame_ret frame_raise frame_http_get frame_resolve_txt frame_utcnow
  frame_time_time frame_token_hex16 frame_sha256_hexdigest frame_response_json
  frame_dict_get frame_subscript : frames.

Ltac frame_step :=
  match goal with
  | |- frame (try_except _ _) => apply frame_try; [ | intros ?e ]
  | |- frame (bind _ _) => apply frame_bind; [ | intros ?a ]
  | |- frame (match ?x with _ => _ end) => destruct x eqn:?
  | |- match (if ?b then _ else _) with _ => _ end => destruct b eqn:?
  | |- match ?x with _ => _ end => destruct x eqn:?
  | |- True => exact I
  | |- frame _ => solve [ eauto with frames ]
  end.


(** ** The verifiers do not depend on earlier calls *)

Lemma github_verify_namespace_frame (ns oauth_token : string) :
  frame (GitHub.verify_namespace ns oauth_token).
Proof.
  unfold GitHub.verify_namespace, GitHub.generate_verification_token,
    GitHub.verify_github_organization, GitHub.verify_github_user, GitHub.request_failed.
  cbv zeta. repeat frame_step.
Qed.

Lemma dns_verify_namespace_frame (ns vtoken : string) :
  frame (Dns.verify_namespace ns vtoken).
Proof.
  unfold Dns.verify_namespace, Dns.verify_txt_record, Dns.get_txt_records.
  cbv zeta. repeat frame_step.
Qed.

Lemma http_fetch_loop_frame (urls : list string) : frame (Http.fetch_loop urls).
Proof.
  induction urls as [|u rest IH]; simpl; [apply frame_ret|].
  apply frame_bind; [|intros [data|]; [apply frame_ret | exact IH]].
  unfold Http.try_url. repeat frame_step.
Qed.

Lemma http_verify_namespace_frame (ns vtoken : string) :
  frame (Http.verify_namespace ns vtoken).
Proof.
  unfold Http.verify_namespace, Http.fetch_verification_endpoint.
  repeat first [ apply http_fetch_loop_frame | frame_step ].
Qed.


Lemma default_verifiers_frame : frame_verifiers Dispatcher.default_verifiers.
Proof.
  split; [|split]; intros; simpl;
  auto using github_verify_namespace_frame, dns_verify_namespace_frame,
    http_verify_namespace_frame.
Qed.

Lemma dispatcher_verify_namespace_frame (vs : Dispatcher.verifiers) ns vtoken oauth_token :
  frame_verifiers vs -> frame (Dispatcher.verify_namespace vs ns vtoken oauth_token).
Proof.
  intros (Hg & Hd & Hh).
  unfold Dispatcher.verify_namespace, Dispatcher.verify_with_method.
  repeat first [ apply Hg | apply Hd | apply Hh | frame_step ].
Qed.

(** The dispatcher never raises: every exception of a delegate is
    caught by its [except Exception]. *)
Lemma dispatcher_verify_namespace_total (vs : Dispatcher.verifiers) ns vtoken oauth_token w log :
  exists r, fst (Dispatcher.verify_namespace vs ns vtoken oauth_token w log) = Ok r.
Proof.
  unfold Dispatcher.verify_namespace.
  destruct (Dispatcher.determine_verification_method ns) as [m|]; [|eexists; reflexivity].
  unfold try_except.
  destruct (Dispatcher.verify_with_method vs ns m vtoken oauth_token w log) as [[r|e] l];
    eexists; reflexivity.
Qed.

(** ** Namespace routing *)

Lemma determine_verification_method_spec_github (ns : string) :
  startswith "io.github." ns = true ->
  Dispatcher.determine_verification_method ns = Some Dispatcher.GITHUB_OAUTH.
Proof. unfold Dispatcher.determine_verification_method. intros ->. reflexivity. Qed.

(** C2: [determine_verification_method] returns [GITHUB_OAUTH] exactly
    for the namespaces starting with ["io.github."], [DNS_TXT] exactly for
    those starting with ["com."], ["org."] or ["net."], and [None] for all
    others; with the routing examples of the spec. *)
Theorem determine_verification_method_routing (ns : string) :
  (Dispatcher.determine_verification_method ns = Some Dispatcher.GITHUB_OAUTH
     <-> exists r, ns = ("io.github." ++ r)%string) /\
  (Dispatcher.determine_verification_method ns = Some Dispatcher.DNS_TXT
     <-> exists r, ns = ("com." ++ r)%string \/ ns = ("org." ++ r)%string \/ ns = ("net." ++ r)%string) /\
  (Dispatcher.determine_verification_method ns = None
     <-> forall r, ns <> ("io.github." ++ r)%string /\ ns <> ("com." ++ r)%string /\
                  ns <> ("org." ++ r)%string /\ ns <> ("net." ++ r)%string) /\
  Dispatcher.determine_verification_method "io.github.alice" = Some Dispatcher.GITHUB_OAUTH /\
  Dispatcher.determine_verification_method "io.github.acme.team" = Some Dispatcher.GITHUB_OAUTH /\
  Dispatcher.determine_verification_method "com.example" = Some Dispatcher.DNS_TXT /\
  Dispatcher.determine_verification_method "org.nonprofit" = Some Dispatcher.DNS_TXT /\
  Dispatcher.determine_verification_method "net.example" = Some Dispatcher.DNS_TXT /\
  Dispatcher.determine_verification_method "not.a.valid.ns" = None.
Proof.
  assert (Ex : Dispatcher.determine_verification_method "io.github.alice" = Some Dispatcher.GITHUB_OAUTH /\
  Dispatcher.determine_verification_method "io.github.acme.team" = Some Dispatcher.GITHUB_OAUTH /\
  Dispatcher.determine_verification_method "com.example" = Some Dispatcher.DNS_TXT /\
  Dispatcher.determine_verification_method "org.nonprofit" = Some Dispatcher.DNS_TXT /\
  Dispatcher.determine_verification_method "net.example" = Some Dispatcher.DNS_TXT /\
  Dispatcher.determine_verification_method "not.a.valid.ns" = None)
    by (repeat split; reflexivity).
  unfold Dispatcher.determine_verification_method at 1 2 3.
  destruct (startswith "io.github." ns) eqn:Eg.
  - destruct (proj1 (startswith_spec _ _) Eg) as [r Hr].
    split; [split; [intros _; exists r; exact Hr | reflexivity]|].
    split; [split; [discriminate | intros [r' [E|[E|E]]]; rewrite Hr in E; discriminate E]|].
    split; [split; [discriminate | intros H; exfalso; exact (proj1 (H r) Hr)]|].
    exact Ex.
  - pose proof (proj1 (startswith_false _ _) Eg) as Ng.
    destruct (startswith "com." ns || startswith "org." ns || startswith "net." ns) eqn:Ed.
    + assert (Hd : exists r, ns = ("com." ++ r)%string \/ ns = ("org." ++ r)%string
                             \/ ns = ("net." ++ r)%string).
      { apply orb_true_iff in Ed as [Ed|Ed]; [apply orb_true_iff in Ed as [Ed|Ed]|];
        apply startswith_spec in Ed as [r Hr]; exists r; auto. }
      split; [split; [discriminate | intros [r E]; exfalso; exact (Ng r E)]|].
      split; [split; [intros _; exact Hd | reflexivity]|].
      split; [split; [discriminate | intros H; exfalso]|exact Ex].
      destruct Hd as [r [E|[E|E]]]; destruct (H r) as (_ & H1 & H2 & H3); auto.
    + apply orb_false_iff in Ed as [Ed Nn]; apply orb_false_iff in Ed as [Nc No].
      rewrite startswith_false in Nc, No, Nn.
      split; [split; [discriminate | intros [r E]; exfalso; exact (Ng r E)]|].
      split; [split; [discriminate | intros [r [E|[E|E]]]; exfalso;
        first [exact (Nc r E) | exact (No r E) | exact (Nn r E)]]|].
      split; [split; [intros _ r; repeat split; auto | reflexivity]|exact Ex].
Qed.

(** ** Short circuits of the dispatcher *)

(** C3: whatever the delegate verifiers are, the dispatcher answers
    without any network call and without running a delegate when the
    namespace has no method ("Unsupported namespace format"), when the
    method is GitHub OAuth and no OAuth token is given, and when the
    method is DNS TXT or HTTP well-known and no verification token is
    given: the result is the fixed failure and the call log is
    unchanged. *)
Theorem verify_namespace_short_circuit (vs : Dispatcher.verifiers) (ns : string)
    (vtoken oauth_token : option string) (w : world) (log : list call) :
  (Dispatcher.determine_verification_method ns = None ->
   Dispatcher.verify_namespace vs ns vtoken oauth_token w log =
   (Ok (Dispatcher.failed ns "none" "Unsupported namespace format"), log)) /\
  (Dispatcher.determine_verification_method ns = Some Dispatcher.GITHUB_OAUTH ->
   oauth_token = None ->
   Dispatcher.verify_namespace vs ns vtoken oauth_token w log =
   (Ok (Dispatcher.failed ns "github-oauth" "OAuth token required for GitHub verification"), log)) /\
  (Dispatcher.determine_verification_method ns = Some Dispatcher.DNS_TXT ->
   vtoken = None ->
   Dispatcher.verify_namespace vs ns vtoken oauth_token w log =
   (Ok (Dispatcher.failed ns "dns-txt" "Verification token required for DNS verification"), log)) /\
  (vtoken = None ->
   Dispatcher.verify_with_method vs ns Dispatcher.HTTP_WELL_KNOWN vtoken oauth_token w log =
   (Ok (Dispatcher.failed ns "http-well-known" "Verification token required for HTTP verification"), log)).
Proof.
  unfold Dispatcher.verify_namespace.
  split; [intros -> ; reflexivity|].
  split; [intros -> ->; reflexivity|].
  split; [intros -> ->; reflexivity|].
  intros ->; reflexivity.
Qed.

(** ** Batch verification *)

Lemma lookup_token_spec (t : gmap string string) (ns : string) :
  Dispatcher.lookup_token (Some t) ns = t !! ns.
Proof.
  unfold Dispatcher.lookup_token. destruct (decide (t = ∅)) as [->|]; [|reflexivity].
  rewrite lookup_empty. reflexivity.
Qed.

(** C6: when the delegates do not depend on earlier calls (as every
    Python function, which cannot see the requests issued before it),
    [batch_verify] returns one result per namespace, in input order;
    the i-th result is the one [verify_namespace] gives for the i-th
    namespace alone, with its token looked up in the mapping ([None]
    when absent or when no mapping is given), and the calls are those
    of the single verifications, one after the other.  No entry's
    outcome depends on another entry, and the batch never stops early. *)
Theorem batch_verify_pointwise (vs : Dispatcher.verifiers) (namespaces : list string)
    (tokens : option (gmap string string)) (oauth_token : option string)
    (w : world) (log : list call) :
  frame_verifiers vs ->
  (forall t ns, Dispatcher.lookup_token (Some t) ns = t !! ns) /\
  (forall ns, Dispatcher.lookup_token None ns = None) /\
  exists results,
    Dispatcher.batch_verify vs namespaces tokens oauth_token w log =
      (Ok results,
       app log (concat (map (fun ns => snd (Dispatcher.verify_namespace vs ns
                                              (Dispatcher.lookup_token tokens ns) oauth_token w []))
                         namespaces))) /\
    Forall2 (fun ns r => fst (Dispatcher.verify_namespace vs ns
                                (Dispatcher.lookup_token tokens ns) oauth_token w []) = Ok r)
            namespaces results.
Proof.
  intros Hvs.
  split; [exact lookup_token_spec|].
  split; [reflexivity|].
  revert log; induction namespaces as [|ns rest IH]; intros log.
  - exists []. simpl. rewrite app_nil_r. split; [reflexivity | constructor].
  - simpl. rewrite run_bind.
    rewrite (dispatcher_verify_namespace_frame vs ns (Dispatcher.lookup_token tokens ns)
               oauth_token Hvs w log).
    destruct (dispatcher_verify_namespace_total vs ns (Dispatcher.lookup_token tokens ns)
                oauth_token w []) as [r Hr].
    rewrite Hr. simpl.
    destruct (IH (app log (snd (Dispatcher.verify_namespace vs ns
                                   (Dispatcher.lookup_token tokens ns) oauth_token w []))))
      as [results [Hrun Hall]].
    rewrite run_bind, Hrun. simpl.
    exists (r :: results). split.
    + rewrite app_assoc. reflexivity.
    + constructor; assumption.
Qed.

Lemma batch_verify_pointwise_witness :
  exists results,
    Dispatcher.batch_verify Dispatcher.default_verifiers ["io.github.a"; "com.b"; "io.github.c"]
      None (Some "gho_token") github_user_world [] =
      (Ok results,
       app [] (concat (map (fun ns => snd (Dispatcher.verify_namespace Dispatcher.default_verifiers ns
                                             (Dispatcher.lookup_token None ns) (Some "gho_token")
                                             github_user_world []))
                        ["io.github.a"; "com.b"; "io.github.c"]))) /\
    length results = 3%nat.
Proof.
  destruct (batch_verify_pointwise Dispatcher.default_verifiers ["io.github.a"; "com.b"; "io.github.c"]
              None (Some "gho_token") github_user_world [] default_verifiers_frame)
    as (_ & _ & results & Hrun & Hall).
  exists results. split; [exact Hrun|].
  apply Forall2_length in Hall. simpl in Hall. symmetry. exact Hall.
Defined.

(** ** The dispatcher never routes to the HTTP well-known verifier *)

Lemma github_verify_namespace_method (ns oauth_token : string) :
  post (GitHub.verify_namespace ns oauth_token)
       (fun r => GitHub.verification_method r = "github-oauth").
Proof.
  unfold GitHub.verify_namespace, GitHub.generate_verification_token,
    GitHub.verify_github_organization, GitHub.verify_github_user, GitHub.request_failed.
  cbv zeta. repeat post_step; reflexivity.
Qed.

Lemma dns_verify_namespace_method (ns vtoken : string) :
  post (Dns.verify_namespace ns vtoken) (fun r => Dns.verification_method r = "dns-txt").
Proof.
  unfold Dns.verify_namespace, Dns.verify_txt_record, Dns.get_txt_records, Dns.failure.
  cbv zeta. repeat post_step; reflexivity.
Qed.

(** C10: [determine_verification_method] never yields
    [HTTP_WELL_KNOWN]; hence the dispatcher's result is the same
    whatever its HTTP delegate is (that branch is never run), and with
    the verifiers it builds no result, which it always returns, has the
    method ["http-well-known"]. *)
Theorem dispatcher_never_http_well_known (ns : string) :
  Dispatcher.determine_verification_method ns <> Some Dispatcher.HTTP_WELL_KNOWN /\
  (forall vs h vtoken oauth_token w log,
     Dispatcher.verify_namespace (with_http_verifier vs h) ns vtoken oauth_token w log =
     Dispatcher.verify_namespace vs ns vtoken oauth_token w log) /\
  (forall vtoken oauth_token w log,
     match fst (Dispatcher.verify_namespace Dispatcher.default_verifiers ns vtoken oauth_token w log) with
     | Ok r => Dispatcher.verification_method r <> "http-well-known"
     | Raised _ => False
     end).
Proof.
  assert (Hd : Dispatcher.determine_verification_method ns <> Some Dispatcher.HTTP_WELL_KNOWN).
  { unfold Dispatcher.determine_verification_method.
    destruct (startswith "io.github." ns); [discriminate|].
    destruct (_ || _ || _); discriminate. }
  split; [exact Hd|]. split.
  - intros vs h vtoken oauth_token w log. unfold Dispatcher.verify_namespace.
    destruct (Dispatcher.determine_verification_method ns) as [[| |]|]; try reflexivity.
    exfalso; apply Hd; reflexivity.
  - intros vtoken oauth_token w log. unfold Dispatcher.verify_namespace.
    destruct (Dispatcher.determine_verification_method ns) as [[| |]|] eqn:Hm;
      [| | exfalso; apply Hd; reflexivity | simpl; discriminate].
    + unfold try_except, Dispatcher.verify_with_method; simpl.
      destruct oauth_token as [o|]; [|simpl; discriminate].
      destruct (String.eqb o ""); [simpl; discriminate|].
      rewrite run_bind.
      pose proof (github_verify_namespace_method ns o w log) as Hg.
      destruct (GitHub.verify_namespace ns o w log) as [[r|e] l]; simpl in *;
        [rewrite Hg|]; discriminate.
    + unfold try_except, Dispatcher.verify_with_method; simpl.
      destruct vtoken as [t|]; [|simpl; discriminate].
      destruct (String.eqb t ""); [simpl; discriminate|].
      rewrite run_bind.
      pose proof (dns_verify_namespace_method ns t w log) as Hg.
      destruct (Dns.verify_namespace ns t w log) as [[r|e] l]; simpl in *;
        [rewrite Hg|]; discriminate.
Qed.

(** ** The result invariant *)

Ltac invariant_ret :=
  unfold github_result_invariant, dns_result_invariant, http_result_invariant,
    dispatcher_result_invariant, result_invariant; simpl;
  first
  [ split; [reflexivity | eexists; split; reflexivity]
  | split; [reflexivity | split; [reflexivity | eexists; split; [reflexivity | discriminate]]] ].

Lemma github_user_failure_message (username oauth_token : string) :
  post (GitHub.verify_github_user username oauth_token)
       (fun r => fst r = false -> exists m, snd r = GitHub.GhError m /\ m <> "").
Proof.
  unfold GitHub.verify_github_user, GitHub.request_failed.
  repeat post_step.
  all: simpl; intros; try discriminate.
  all: eexists; split; [reflexivity | simpl; discriminate].
Qed.

Lemma github_organization_failure_message (org_name oauth_token : string) :
  post (GitHub.verify_github_organization org_name oauth_token)
       (fun r => fst r = false -> exists m, snd r = GitHub.GhError m /\ m <> "").
Proof.
  unfold GitHub.verify_github_organization, GitHub.request_failed.
  repeat post_step.
  all: simpl; intros; try discriminate.
  all: eexists; split; [reflexivity | simpl; discriminate].
Qed.

Lemma github_verify_namespace_invariant (ns oauth_token : string) :
  post (GitHub.verify_namespace ns oauth_token) github_result_invariant.
Proof.
  unfold GitHub.verify_namespace. cbv zeta.
  destruct (negb (startswith "io.github." ns)); [apply post_ret; invariant_ret|].
  apply post_bind_any; intros vtoken.
  apply (post_bind _ _ (fun r => fst r = false -> exists m, snd r = GitHub.GhError m /\ m <> "")).
  - destruct (contains_char "." (str_drop 10 ns));
      [apply github_organization_failure_message | apply github_user_failure_message].
  - intros [[|] data] Hq; simpl.
    + apply post_bind_any; intros now. apply post_ret. invariant_ret.
    + destruct (Hq eq_refl) as [m [Hd Hm]]; simpl in Hd; subst data.
      apply post_ret. unfold github_result_invariant, result_invariant; simpl.
      split; [reflexivity | split; [reflexivity | exists m; split; [reflexivity | exact Hm]]].
Qed.

Lemma dns_get_txt_records_failure_message (dom : string) :
  post (Dns.get_txt_records dom)
       (fun r => fst (fst r) = false -> exists m, snd r = Some m /\ m <> "").
Proof.
  unfold Dns.get_txt_records. apply post_bind_any; intros answer. apply post_ret.
  destruct answer; simpl; intros; try discriminate;
    (eexists; split; [reflexivity | simpl; discriminate]).
Qed.

Lemma dns_verify_txt_record_failure_message (dom expected_token : string) :
  post (Dns.verify_txt_record dom expected_token)
       (fun r => fst (fst r) = false -> exists m, snd r = Some m /\ m <> "").
Proof.
  unfold Dns.verify_txt_record.
  apply (post_bind _ _ _ _ (dns_get_txt_records_failure_message dom)).
  intros [[ok records] err] Hq; simpl in Hq.
  destruct ok; simpl.
  - destruct (Dns.scan_records expected_token records); apply post_ret; simpl; intros;
      [discriminate | (eexists; split; [reflexivity | simpl; discriminate])].
  - apply post_ret. simpl. exact Hq.
Qed.

Lemma dns_verify_namespace_invariant (ns vtoken : string) :
  post (Dns.verify_namespace ns vtoken) dns_result_invariant.
Proof.
  unfold Dns.verify_namespace.
  destruct (Dns.extract_domain_from_namespace ns) as [dom|]; [|apply post_ret; invariant_ret].
  destruct (String.eqb dom ""); [apply post_ret; invariant_ret|].
  apply (post_bind _ _ _ _ (dns_get_txt_records_failure_message dom)).
  intros [[ok records] err] Hq; simpl in Hq.
  destruct ok; simpl.
  - apply (post_bind _ _ _ _ (dns_verify_txt_record_failure_message dom vtoken)).
    intros [[tok_ok final_records] token_err] Hq'; simpl in Hq'.
    destruct tok_ok; simpl.
    + apply post_bind_any; intros now. apply post_ret. invariant_ret.
    + destruct (Hq' eq_refl) as [m [-> Hm]]. apply post_ret.
      unfold dns_result_invariant, result_invariant; simpl.
      split; [reflexivity | split; [reflexivity | exists m; split; [reflexivity | exact Hm]]].
  - destruct (Hq eq_refl) as [m [-> Hm]]. apply post_ret.
    unfold dns_result_invariant, result_invariant; simpl.
    split; [reflexivity | split; [reflexivity | exists m; split; [reflexivity | exact Hm]]].
Qed.

Lemma http_fetch_loop_shape (urls : list string) :
  post (Http.fetch_loop urls)
       (fun r => match r with
                 | (true, Some _, _) => True
                 | (_, _, err) => exists m, err = Some m /\ m <> ""
                 end).
Proof.
  induction urls as [|u rest IH]; simpl.
  - apply post_ret. eexists; split; [reflexivity | discriminate].
  - apply post_bind_any; intros [data|]; [apply post_ret; exact I | exact IH].
Qed.

Lemma http_verify_namespace_invariant (ns vtoken : string) :
  post (Http.verify_namespace ns vtoken) http_result_invariant.
Proof.
  unfold Http.verify_namespace, Http.fetch_verification_endpoint.
  destruct (Http.extract_domain_from_namespace ns) as [dom|]; [|apply post_ret; invariant_ret].
  destruct (String.eqb dom ""); [apply post_ret; invariant_ret|].
  apply (post_bind _ _ _ _ (http_fetch_loop_shape _)).
  intros [[[|] [data|]] err] Hq.
  2-4: destruct Hq as [m [-> Hm]]; apply post_ret;
       unfold http_result_invariant, result_invariant; simpl;
       (split; [reflexivity | split; [reflexivity | exists m; split; [reflexivity | exact Hm]]]).
  destruct (negb (Http.verify_token_in_response data vtoken)).
  - apply post_ret. invariant_ret.
  - apply post_bind_any; intros now. apply post_ret. invariant_ret.
Qed.

Lemma dispatcher_verify_namespace_invariant ns vtoken oauth_token :
  post (Dispatcher.verify_namespace Dispatcher.default_verifiers ns vtoken oauth_token)
       dispatcher_result_invariant.
Proof.
  unfold Dispatcher.verify_namespace.
  destruct (Dispatcher.determine_verification_method ns) as [method|];
    [|apply post_ret; invariant_ret].
  apply post_try; [|intros e; apply post_ret; invariant_ret].
  unfold Dispatcher.verify_with_method.
  destruct method; simpl.
  - destruct oauth_token as [o|]; [|apply post_ret; invariant_ret].
    destruct (String.eqb o ""); [apply post_ret; invariant_ret|].
    apply (post_bind _ _ _ _ (github_verify_namespace_invariant ns o)).
    intros r Hr. apply post_ret. exact Hr.
  - destruct vtoken as [t|]; [|apply post_ret; invariant_ret].
    destruct (String.eqb t ""); [apply post_ret; invariant_ret|].
    apply (post_bind _ _ _ _ (dns_verify_namespace_invariant ns t)).
    intros r Hr. apply post_ret. exact Hr.
  - destruct vtoken as [t|]; [|apply post_ret; invariant_ret].
    destruct (String.eqb t ""); [apply post_ret; invariant_ret|].
    apply (post_bind _ _ _ _ (http_verify_namespace_invariant ns t)).
    intros r Hr. apply post_ret. exact Hr.
Qed.

(** C1: every result returned by the GitHub, DNS TXT or HTTP well-known
    verifier's [verify_namespace], and by the dispatcher's
    [verify_namespace] (which always returns one), satisfies the
    invariant: on success the error message is absent ([None]) and
    [expires_at] is [verified_at] plus exactly 365 days; on failure both
    timestamps are empty and the error message is a non-empty string. *)
Theorem verification_result_invariant :
  (forall ns oauth_token, post (GitHub.verify_namespace ns oauth_token) github_result_invariant) /\
  (forall ns vtoken, post (Dns.verify_namespace ns vtoken) dns_result_invariant) /\
  (forall ns vtoken, post (Http.verify_namespace ns vtoken) http_result_invariant) /\
  (forall ns vtoken oauth_token w log,
     exists r,
       fst (Dispatcher.verify_namespace Dispatcher.default_verifiers ns vtoken oauth_token w log) = Ok r /\
       dispatcher_result_invariant r).
Proof.
  split; [exact github_verify_namespace_invariant|].
  split; [exact dns_verify_namespace_invariant|].
  split; [exact http_verify_namespace_invariant|].
  intros ns vtoken oauth_token w log.
  destruct (dispatcher_verify_namespace_total Dispatcher.default_verifiers ns vtoken oauth_token w log)
    as [r Hr].
  exists r. split; [exact Hr|].
  pose proof (dispatcher_verify_namespace_invariant ns vtoken oauth_token w log) as H.
  rewrite Hr in H. exact H.
Qed.

(** ** Matching DNS TXT records *)

Lemma txt_record_eqb (x t : string) :
  String.eqb ((Dns.txt_record_prefix ++ "=") ++ x) (Dns.txt_record_prefix ++ "=" ++ t) =
  String.eqb x t.
Proof. reflexivity. Qed.

Lemma txt_record_startswith (x : string) :
  startswith (Dns.txt_record_prefix ++ "=") ((Dns.txt_record_prefix ++ "=") ++ x) = true.
Proof. apply startswith_app. Qed.

Lemma txt_record_contains_eq (x : string) :
  contains_char "=" ((Dns.txt_record_prefix ++ "=") ++ x) = true.
Proof. reflexivity. Qed.

Lemma txt_record_after_eq (x : string) :
  after_char "=" ((Dns.txt_record_prefix ++ "=") ++ x) = x.
Proof. reflexivity. Qed.

(** A record accepted by the loop of [verify_txt_record] is exactly the
    expected record: the prefix has no [=], so the token part of
    [prefix=...] is everything after the prefix. *)
Lemma scan_records_exact (expected_token : string) (records : list string) :
  Dns.scan_records expected_token records =
  existsb (fun r => String.eqb r (Dns.txt_record_prefix ++ "=" ++ expected_token)) records.
Proof.
  induction records as [|r rest IH]; [reflexivity|]. cbn [Dns.scan_records existsb].
  rewrite IH.
  match goal with |- (if ?c then _ else _) = _ =>
    replace c with (String.eqb r (Dns.txt_record_prefix ++ "=" ++ expected_token)) end;
    [destruct (String.eqb r _); reflexivity|].
  destruct (startswith (Dns.txt_record_prefix ++ "=") r) eqn:Hs.
  - apply startswith_spec in Hs as [x ->].
    rewrite txt_record_eqb, txt_record_contains_eq, txt_record_after_eq.
    destruct (String.eqb x expected_token); reflexivity.
  - destruct (String.eqb r (Dns.txt_record_prefix ++ "=" ++ expected_token)) eqn:E;
      [|reflexivity].
    apply String.eqb_eq in E. subst r. cbn in Hs. discriminate.
Qed.

(** C4: when the TXT lookup of [dom] succeeds, [verify_txt_record dom
    expected_token] succeeds exactly when one of the returned records
    (each stripped of its double quotes) equals
    [mcp-registry-verification=<expected_token>]; otherwise it fails with
    the token-not-found message and returns all the observed records.
    With the records [mcp-registry-verification=abc123...] and
    [other-record], the token [abc123...] is accepted and [wrong] is
    refused. *)
Theorem verify_txt_record_exact_match :
  (forall (dom expected_token : string) (rdatas : list string) (w : world) (log : list call),
     w_resolve_txt w dom = DnsAnswer rdatas ->
     Dns.verify_txt_record dom expected_token w log =
       (Ok (let records := map strip_dquotes rdatas in
            if existsb (fun r => String.eqb r (Dns.txt_record_prefix ++ "=" ++ expected_token)) records
            then (true, records, None)
            else (false, records,
                  Some ("Verification TXT record not found. Expected: "
                        ++ Dns.txt_record_prefix ++ "=" ++ expected_token))),
        app log [CallDnsResolve dom])) /\
  Dns.verify_txt_record "example.com" "abc123..." dns_sample_world [] =
    (Ok (true, sample_txt_records, None), [CallDnsResolve "example.com"]) /\
  Dns.verify_txt_record "example.com" "wrong" dns_sample_world [] =
    (Ok (false, sample_txt_records,
         Some "Verification TXT record not found. Expected: mcp-registry-verification=wrong"),
     [CallDnsResolve "example.com"]).
Proof.
  split; [|split; vm_compute; reflexivity].
  intros dom expected_token rdatas w log Hw.
  unfold Dns.verify_txt_record, Dns.get_txt_records, bind, resolve_txt, ret.
  rewrite Hw. cbn beta iota zeta. simpl negb. cbv iota.
  rewrite scan_records_exact. destruct (existsb _ _); reflexivity.
Qed.

Lemma verify_txt_record_exact_match_witness :
  w_resolve_txt dns_sample_world "example.com" = DnsAnswer (map quoted sample_txt_records) /\
  Dns.verify_txt_record "example.com" "abc123..." dns_sample_world [] =
    (Ok (true, sample_txt_records, None), app [] [CallDnsResolve "example.com"]).
Proof.
  split; [reflexivity|].
  rewrite (proj1 verify_txt_record_exact_match "example.com" "abc123..."
             (map quoted sample_txt_records) dns_sample_world [] eq_refl).
  vm_compute. reflexivity.
Defined.

(** ** [str.strip] is idempotent *)

Lemma str_app_nil_r (s : string) : s ++ "" = s.
Proof. induction s as [|c s IH]; [reflexivity | exact (f_equal (String c) IH)]. Qed.

Lemma str_app_assoc (s t u : string) : (s ++ t) ++ u = s ++ (t ++ u).
Proof. induction s as [|c s IH]; [reflexivity | exact (f_equal (String c) IH)]. Qed.

Lemma rev_str_acc (s acc : string) : rev_str s acc = rev_str s "" ++ acc.
Proof.
  revert acc. induction s as [|c s IH]; intros acc; simpl; [reflexivity|].
  rewrite (IH (String c acc)), (IH (String c "")), str_app_assoc. reflexivity.
Qed.

Lemma rev_str_app (s t : string) : rev_str (s ++ t) "" = rev_str t "" ++ rev_str s "".
Proof.
  induction s as [|c s IH]; [rewrite str_app_nil_r; reflexivity|].
  change (String c s ++ t) with (String c (s ++ t)). simpl.
  rewrite (rev_str_acc (s ++ t)), (rev_str_acc s), IH, str_app_assoc. reflexivity.
Qed.

Lemma rev_str_involutive (s : string) : rev_str (rev_str s "") "" = s.
Proof.
  induction s as [|c s IH]; simpl; [reflexivity|].
  rewrite (rev_str_acc s (String c "")), rev_str_app, IH. reflexivity.
Qed.

Section Strip.
Variable f : ascii -> bool.

Lemma hd_kept_app (s t : string) : hd_kept f (s ++ t) -> hd_kept f s.
Proof. destruct s; simpl; auto. Qed.

Lemma lstrip_by_hd_kept (s : string) : hd_kept f (lstrip_by f s).
Proof.
  induction s as [|c s IH]; simpl; [exact I|].
  destruct (f c) eqn:E; [exact IH | simpl; exact E].
Qed.

Lemma lstrip_by_kept (s : string) : hd_kept f s -> lstrip_by f s = s.
Proof. destruct s as [|c s]; simpl; [reflexivity | intros E; rewrite E; reflexivity]. Qed.

Lemma lstrip_by_suffix (s : string) : exists p, s = p ++ lstrip_by f s.
Proof.
  induction s as [|c s [p Hp]]; simpl; [exists ""; reflexivity|].
  destruct (f c); [exists (String c p); rewrite Hp at 1; reflexivity | exists ""; reflexivity].
Qed.

Lemma strip_by_idempotent (s : string) : strip_by f (strip_by f s) = strip_by f s.
Proof.
  unfold strip_by.
  set (a := lstrip_by f s).
  set (c := lstrip_by f (rev_str a "")).
  assert (Ha : hd_kept f a) by apply lstrip_by_hd_kept.
  assert (Hc : hd_kept f c) by apply lstrip_by_hd_kept.
  assert (Hrc : hd_kept f (rev_str c "")).
  { destruct (lstrip_by_suffix (rev_str a "")) as [p Hp]. fold c in Hp.
    apply (f_equal (fun x => rev_str x "")) in Hp.
    rewrite rev_str_involutive, rev_str_app in Hp.
    rewrite Hp in Ha. exact (hd_kept_app _ _ Ha). }
  rewrite (lstrip_by_kept _ Hrc), rev_str_involutive, (lstrip_by_kept _ Hc).
  reflexivity.
Qed.

End Strip.

Lemma py_strip_idempotent (s : string) : py_strip (py_strip s) = py_strip s.
Proof. apply strip_by_idempotent. Qed.

(** ** Fetching the HTTP well-known endpoint *)

Lemma http_try_url_run (u : string) (w : world) (log : list call) :
  Http.try_url u w log =
  (match w_http_get w u Http.request_headers with
   | HttpRaised e => if is_request_exception e then Ok None else Raised e
   | HttpResponse r =>
       if Z.eqb (status_code r) 200 then Ok (Some (fetched_body u r)) else Ok None
   end,
   app log [CallHttpGet u Http.request_headers]).
Proof.
  unfold Http.try_url, try_except, bind, http_get, response_json, ret, raise, fetched_body.
  destruct (w_http_get w u Http.request_headers) as [e|r]; simpl.
  - destruct (is_request_exception e); reflexivity.
  - destruct (Z.eqb (status_code r) 200); [|reflexivity].
    destruct (resp_json r); reflexivity.
Qed.

Lemma http_fetch_run (dom : string) (w : world) (log : list call) :
  Http.fetch_verification_endpoint dom w log =
  bind (Http.try_url (Http.build_endpoint_url dom true))
    (fun r => match r with
              | Some data => ret (true, Some data, None)
              | None => bind (Http.try_url (Http.build_endpoint_url dom false))
                          (fun r => match r with
                                    | Some data => ret (true, Some data, None)
                                    | None => ret (false, None, Some Http.unreachable_msg)
                                    end)
              end) w log.
Proof. reflexivity. Qed.

Lemma http_attempt_fails_run (u : string) (w : world) (log : list call) :
  http_attempt_fails (w_http_get w u Http.request_headers) = true ->
  Http.try_url u w log = (Ok None, app log [CallHttpGet u Http.request_headers]).
Proof.
  intros Hf. rewrite http_try_url_run.
  destruct (w_http_get w u Http.request_headers) as [e|r]; simpl in Hf.
  - rewrite Hf. reflexivity.
  - apply negb_true_iff in Hf. rewrite Hf. reflexivity.
Qed.

Lemma http_fetched_run (u : string) (w : world) (log : list call) (r : response) :
  w_http_get w u Http.request_headers = HttpResponse r -> status_code r = 200%Z ->
  Http.try_url u w log = (Ok (Some (fetched_body u r)), app log [CallHttpGet u Http.request_headers]).
Proof. intros Hw Hs. rewrite http_try_url_run, Hw, Hs. reflexivity. Qed.

Lemma json_eq_str_false (o : option json) (s : string) :
  o <> Some (JStr s) -> json_eq_str o s = false.
Proof.
  intros Hne. destruct o as [[| | | s' | |]|]; try reflexivity.
  simpl. apply String.eqb_neq. intros ->. apply Hne. reflexivity.
Qed.

(** C5: for a domain-style namespace the HTTP well-known verifier first
    GETs the well-known path over HTTPS; when that attempt fails (a
    [requests] exception such as a timeout or a connection error, or a
    status other than 200) it GETs the same path over HTTP; a 200
    answer of either is the fetched body, and when both fail the result
    is the endpoint-unreachable error. A fetched JSON object with one of
    the fields [token], [verification_token], [mcp_registry_token],
    [auth_token] equal to the expected token succeeds, a non-JSON body
    whose stripped text is the token succeeds, and a JSON object whose
    recognised fields all differ from it fails with the token-not-found
    message. The bodies [{"token": "T"}] and [T] match [T], and
    [{"token": "other"}] does not. *)
Theorem http_well_known_fetch_and_match :
  (forall (dom : string) (w : world) (log : list call) (r : response),
     w_http_get w (Http.build_endpoint_url dom true) Http.request_headers = HttpResponse r ->
     status_code r = 200%Z ->
     Http.fetch_verification_endpoint dom w log =
       (Ok (true, Some (fetched_body (Http.build_endpoint_url dom true) r), None),
        app log [CallHttpGet (Http.build_endpoint_url dom true) Http.request_headers])) /\
  (forall (dom : string) (w : world) (log : list call) (r : response),
     http_attempt_fails (w_http_get w (Http.build_endpoint_url dom true) Http.request_headers) = true ->
     w_http_get w (Http.build_endpoint_url dom false) Http.request_headers = HttpResponse r ->
     status_code r = 200%Z ->
     Http.fetch_verification_endpoint dom w log =
       (Ok (true, Some (fetched_body (Http.build_endpoint_url dom false) r), None),
        app log [CallHttpGet (Http.build_endpoint_url dom true) Http.request_headers;
                 CallHttpGet (Http.build_endpoint_url dom false) Http.request_headers])) /\
  (forall (dom : string) (w : world) (log : list call),
     http_attempt_fails (w_http_get w (Http.build_endpoint_url dom true) Http.request_headers) = true ->
     http_attempt_fails (w_http_get w (Http.build_endpoint_url dom false) Http.request_headers) = true ->
     Http.fetch_verification_endpoint dom w log =
       (Ok (false, None, Some Http.unreachable_msg),
        app log [CallHttpGet (Http.build_endpoint_url dom true) Http.request_headers;
                 CallHttpGet (Http.build_endpoint_url dom false) Http.request_headers])) /\
  (forall (ns dom vtoken : string) (w : world) (log log' : list call) (data : Http.fetch_data),
     Http.extract_domain_from_namespace ns = Some dom -> dom <> "" ->
     Http.fetch_verification_endpoint dom w log = (Ok (true, Some data, None), log') ->
     exists res,
       Http.verify_namespace ns vtoken w log = (Ok res, log') /\
       Http.success res = Http.verify_token_in_response data vtoken /\
       (Http.success res = false ->
        Http.error_message res = Some ("Verification token not found in response from " ++ Http.url data))) /\
  (forall (ns dom vtoken : string) (w : world) (log log' : list call),
     Http.extract_domain_from_namespace ns = Some dom -> dom <> "" ->
     Http.fetch_verification_endpoint dom w log = (Ok (false, None, Some Http.unreachable_msg), log') ->
     exists res,
       Http.verify_namespace ns vtoken w log = (Ok res, log') /\
       Http.success res = false /\ Http.error_message res = Some Http.unreachable_msg) /\
  (forall (data : Http.fetch_data) (vtoken k : string) (kvs : list (string * json)),
     Http.content data = JObj kvs -> In k token_fields -> assoc_last k kvs = Some (JStr vtoken) ->
     Http.verify_token_in_response data vtoken = true) /\
  (forall (u vtoken msg : string) (r : response),
     resp_json r = inl msg -> py_strip (resp_text r) = vtoken ->
     Http.verify_token_in_response (fetched_body u r) vtoken = true) /\
  (forall (data : Http.fetch_data) (vtoken : string) (kvs : list (string * json)),
     Http.content data = JObj kvs ->
     (forall k, In k token_fields -> assoc_last k kvs <> Some (JStr vtoken)) ->
     Http.verify_token_in_response data vtoken = false) /\
  match fst (Http.verify_namespace "com.example" "T"
               (http_only_world (json_response 200 (JObj [("token", JStr "T")]))) []) with
  | Ok res => Http.success res = true | Raised _ => False end /\
  match fst (Http.verify_namespace "com.example" "T" (http_only_world (text_response 200 "T")) []) with
  | Ok res => Http.success res = true | Raised _ => False end /\
  match fst (Http.verify_namespace "com.example" "T"
               (http_only_world (json_response 200 (JObj [("token", JStr "other")]))) []) with
  | Ok res =>
      Http.success res = false /\
      Http.error_message res =
        Some "Verification token not found in response from http://example/.well-known/mcp-registry-auth"
  | Raised _ => False end.
Proof.
  split.
  { intros dom w log r Hw Hs. rewrite http_fetch_run, run_bind, (http_fetched_run _ _ _ r Hw Hs).
    reflexivity. }
  split.
  { intros dom w log r Hf Hw Hs.
    rewrite http_fetch_run, run_bind, (http_attempt_fails_run _ _ _ Hf). simpl.
    rewrite run_bind, (http_fetched_run _ _ _ r Hw Hs), <- app_assoc. reflexivity. }
  split.
  { intros dom w log Hf1 Hf2.
    rewrite http_fetch_run, run_bind, (http_attempt_fails_run _ _ _ Hf1). simpl.
    rewrite run_bind, (http_attempt_fails_run _ _ _ Hf2), <- app_assoc. reflexivity. }
  split.
  { intros ns dom vtoken w log log' data Hd Hne Hf.
    unfold Http.verify_namespace. rewrite Hd.
    apply String.eqb_neq in Hne. rewrite Hne.
    rewrite run_bind, Hf.
    destruct (Http.verify_token_in_response data vtoken) eqn:Hv; simpl.
    - eexists; split; [reflexivity|]. split; [reflexivity | discriminate].
    - eexists; split; [reflexivity|]. split; reflexivity. }
  split.
  { intros ns dom vtoken w log log' Hd Hne Hf.
    unfold Http.verify_namespace. rewrite Hd.
    apply String.eqb_neq in Hne. rewrite Hne.
    rewrite run_bind, Hf. simpl.
    eexists; split; [reflexivity|]. split; reflexivity. }
  split.
  { intros data vtoken k kvs Hc Hk Ha.
    unfold Http.verify_token_in_response. rewrite Hc.
    unfold token_fields in Hk. simpl in Hk.
    destruct Hk as [<-|[<-|[<-|[<-|[]]]]]; rewrite Ha; simpl; rewrite String.eqb_refl;
      rewrite ?orb_true_r; reflexivity. }
  split.
  { intros u vtoken msg r Hj Ht.
    unfold Http.verify_token_in_response, fetched_body. simpl. rewrite Hj.
    rewrite py_strip_idempotent, Ht. apply String.eqb_refl. }
  split.
  { intros data vtoken kvs Hc Hall.
    unfold Http.verify_token_in_response. rewrite Hc.
    rewrite !json_eq_str_false; [reflexivity | apply Hall; unfold token_fields; simpl; tauto ..]. }
  split; [vm_compute; reflexivity|].
  split; [vm_compute; reflexivity|].
  vm_compute. split; reflexivity.
Qed.

(** ** The calls of the GitHub verifier *)

(** Runs a computation whose primitives have been unfolded, splitting on
    the innermost stuck [match]es *)
Ltac run_all :=
  repeat (cbv beta iota zeta;
          match goal with
          | |- context [match ?x with _ => _ end] =>
              lazymatch x with
              | context [match _ with _ => _ end] => fail
              | _ => destruct x eqn:?
              end
          end).

Lemma github_user_calls (username oauth_token : string) (w : world) (log : list call) :
  snd (GitHub.verify_github_user username oauth_token w log) =
  app log [CallHttpGet (GitHub.github_api_base ++ "/user") (GitHub.headers oauth_token)].
Proof.
  unfold GitHub.verify_github_user, GitHub.request_failed, try_except, bind, http_get,
    response_json, dict_get, ret, raise.
  run_all; reflexivity.
Qed.

Lemma github_organization_calls (org_name oauth_token : string) (w : world) (log : list call) :
  exists calls,
    snd (GitHub.verify_github_organization org_name oauth_token w log) = app log calls /\
    Forall (github_api_call oauth_token) calls /\
    (1 <= length calls <= 3)%nat /\
    (forall data, fst (GitHub.verify_github_organization org_name oauth_token w log) = Ok (true, data) ->
                  length calls = 3%nat).
Proof.
  unfold GitHub.verify_github_organization, GitHub.request_failed, try_except, bind, http_get,
    response_json, subscript, ret, raise.
  run_all;
    (eexists; split; [cbn [snd]; rewrite <- ?app_assoc; reflexivity|];
     split; [repeat (constructor; [eexists; reflexivity|]); constructor|];
     split; [cbn; lia|];
     intros ? Hd; cbn in Hd; first [discriminate Hd | reflexivity]).
Qed.

(** Past the prefix check, [verify_namespace] makes the calls of the
    user or organisation check and reports its verdict. *)
Lemma github_verify_namespace_inner (ns oauth_token : string) (w : world) (log : list call) :
  startswith "io.github." ns = true ->
  let inner := if contains_char "." (str_drop 10 ns)
               then GitHub.verify_github_organization (before_char "." (str_drop 10 ns)) oauth_token
               else GitHub.verify_github_user (str_drop 10 ns) oauth_token in
  snd (GitHub.verify_namespace ns oauth_token w log) = snd (inner w log) /\
  (forall res, fst (GitHub.verify_namespace ns oauth_token w log) = Ok res ->
     exists data, fst (inner w log) = Ok (GitHub.success res, data) /\
       (GitHub.success res = false -> GitHub.error_message res = Some (GitHub.error_of data))) /\
  (forall a, fst (inner w log) = Ok a ->
     exists res, fst (GitHub.verify_namespace ns oauth_token w log) = Ok res).
Proof.
  intros Hs inner.
  unfold GitHub.verify_namespace. rewrite Hs.
  cbv beta iota zeta delta [negb bind GitHub.generate_verification_token time_time token_hex16
    sha256_hexdigest].
  fold inner.
  destruct (inner w log) as [[[[|] data]|e] l]; cbn.
  - split; [reflexivity|]. split; [|intros; eexists; reflexivity].
    intros res Hr. injection Hr as <-.
    exists data. split; [reflexivity | discriminate].
  - split; [reflexivity|]. split; [|intros; eexists; reflexivity].
    intros res Hr. injection Hr as <-.
    exists data. split; reflexivity.
  - split; [reflexivity|]. split; discriminate.
Qed.

(** C8: the user path of the GitHub verifier makes exactly one call,
    [GET https://api.github.com/user], here with [alice]'s active
    account, which verifies: not two or three. *)
Lemma github_user_path_single_call :
  startswith "io.github." "io.github.alice" = true /\
  snd (GitHub.verify_namespace "io.github.alice" "gho_token" github_user_world []) =
    [CallHttpGet "https://api.github.com/user" (GitHub.headers "gho_token")] /\
  match fst (GitHub.verify_namespace "io.github.alice" "gho_token" github_user_world []) with
  | Ok res => GitHub.success res = true
  | Raised _ => False
  end.
Proof. vm_compute. split; [reflexivity | split; reflexivity]. Qed.

(** C8 (amended): a namespace that passes the prefix check costs only
    GETs of the GitHub API, appended to the call log and nothing else:
    the user path makes exactly one, [GET /user]; the organisation path
    makes one to three, and all three when it succeeds. *)
Theorem github_verify_namespace_calls (ns oauth_token : string) (w : world) (log : list call) :
  startswith "io.github." ns = true ->
  exists calls,
    snd (GitHub.verify_namespace ns oauth_token w log) = app log calls /\
    Forall (github_api_call oauth_token) calls /\
    (contains_char "." (str_drop 10 ns) = false ->
     calls = [CallHttpGet (GitHub.github_api_base ++ "/user") (GitHub.headers oauth_token)]) /\
    (contains_char "." (str_drop 10 ns) = true ->
     (1 <= length calls <= 3)%nat /\
     (forall res, fst (GitHub.verify_namespace ns oauth_token w log) = Ok res ->
                  GitHub.success res = true -> length calls = 3%nat)).
Proof.
  intros Hs.
  destruct (github_verify_namespace_inner ns oauth_token w log Hs) as (Hsnd & Hfst & _).
  destruct (contains_char "." (str_drop 10 ns)) eqn:Hc.
  - destruct (github_organization_calls (before_char "." (str_drop 10 ns)) oauth_token w log)
      as (calls & Hcalls & Hall & Hlen & Hok).
    exists calls. rewrite Hsnd, Hcalls.
    split; [reflexivity|]. split; [exact Hall|]. split; [discriminate|].
    intros _. split; [exact Hlen|].
    intros res Hr Hsucc. destruct (Hfst res Hr) as (data & Hi & _).
    rewrite Hsucc in Hi. exact (Hok data Hi).
  - exists [CallHttpGet (GitHub.github_api_base ++ "/user") (GitHub.headers oauth_token)].
    rewrite Hsnd, github_user_calls.
    split; [reflexivity|].
    split; [constructor; [eexists; reflexivity | constructor]|].
    split; [reflexivity | discriminate].
Qed.

Lemma github_verify_namespace_calls_witness :
  exists calls,
    snd (GitHub.verify_namespace "io.github.acme.team" "gho_token" github_inactive_member_world []) =
      app [] calls /\
    Forall (github_api_call "gho_token") calls /\
    (contains_char "." (str_drop 10 "io.github.acme.team") = false ->
     calls = [CallHttpGet (GitHub.github_api_base ++ "/user") (GitHub.headers "gho_token")]) /\
    (contains_char "." (str_drop 10 "io.github.acme.team") = true ->
     (1 <= length calls <= 3)%nat /\
     (forall res, fst (GitHub.verify_namespace "io.github.acme.team" "gho_token"
                         github_inactive_member_world []) = Ok res ->
                  GitHub.success res = true -> length calls = 3%nat)).
Proof.
  apply (github_verify_namespace_calls "io.github.acme.team" "gho_token" github_inactive_member_world []).
  reflexivity.
Defined.

(** C7 (code bug): the organisation path does not apply the failure
    rules of the user path to the [/user] answer. [verify_github_user]
    fails an account whose [active] flag is false, but
    [verify_github_organization] never reads that flag. For
    [io.github.acme.team] with [mallory]'s credential, an inactive
    account ([/user] answers 200 with login [mallory] and [active]
    false) that is a member of [acme] (204), the organisation path
    succeeds, while the user path fails on the very same [/user]
    answer: with a username mismatch against [acme], and with
    [User account is not active] against [mallory]. *)
Lemma github_organization_skips_user_checks :
  match fst (GitHub.verify_namespace "io.github.acme.team" "gho_token"
               github_inactive_member_world []) with
  | Ok res => GitHub.success res = true
  | Raised _ => False
  end /\
  fst (GitHub.verify_github_user "acme" "gho_token" github_inactive_member_world []) =
    Ok (false, GitHub.GhError "Username mismatch") /\
  fst (GitHub.verify_github_user "mallory" "gho_token" github_inactive_member_world []) =
    Ok (false, GitHub.GhError "User account is not active").
Proof. vm_compute. split; [reflexivity | split; reflexivity]. Qed.


(** ** Checking a GitHub verification token *)

Lemma str_length_app (s t : string) :
  String.length (s ++ t) = (String.length s + String.length t)%nat.
Proof. induction s as [|c s IH]; [reflexivity|]. exact (f_equal S IH). Qed.

Lemma str_drop_split (n : nat) (s : string) : exists p, s = p ++ str_drop n s.
Proof.
  revert s; induction n as [|n IH]; intros s.
  - exists ""%string. reflexivity.
  - destruct s as [|c s]; [exists ""%string; reflexivity|].
    destruct (IH s) as [p Hp]. exists (String c p). simpl.
    change (String c p ++ str_drop n s) with (String c (p ++ str_drop n s)).
    rewrite <- Hp. reflexivity.
Qed.

Lemma endswith_spec (suf s : string) : endswith suf s = true <-> exists p, s = p ++ suf.
Proof.
  unfold endswith. split.
  - intros H. apply String.eqb_eq in H.
    destruct (str_drop_split (String.length s - String.length suf) s) as [p Hp].
    exists p. rewrite H in Hp. exact Hp.
  - intros [p ->]. rewrite str_length_app.
    replace (String.length p + String.length suf - String.length suf)%nat
      with (String.length p) by lia.
    rewrite str_drop_app. apply String.eqb_refl.
Qed.

(** [verify_token_validity] makes no request and never raises; it
    accepts a token exactly when the token is 64 characters long and
    ends with the first 16 characters of the SHA-256 hex digest of the
    namespace. In particular the empty token and every token of another
    length are rejected. *)
Theorem verify_token_validity_spec (vtoken ns : string) (w : world) (log : list call) :
  exists b, GitHub.verify_token_validity vtoken ns w log = (Ok b, log) /\
    (b = true <-> String.length vtoken = 64%nat /\
                  exists p, vtoken = p ++ substring 0 16 (w_sha256_hexdigest w ns)).
Proof.
  unfold GitHub.verify_token_validity.
  destruct (String.eqb vtoken "" || negb (Nat.eqb (String.length vtoken) 64)) eqn:E.
  - exists false. split; [reflexivity|]. split; [discriminate|]. intros [Hl _].
    apply orb_true_iff in E as [E|E].
    + apply String.eqb_eq in E. subst vtoken. discriminate Hl.
    + rewrite Hl in E. simpl in E. discriminate E.
  - exists (endswith (substring 0 16 (w_sha256_hexdigest w ns)) vtoken).
    split; [reflexivity|].
    rewrite endswith_spec. apply orb_false_iff in E as [_ E].
    apply negb_false_iff, Nat.eqb_eq in E. tauto.
Qed.

(** ** Publishing the DNS TXT record *)

Lemma all_chars_no_dquote (s : string) :
  all_chars is_lower_hex s = true -> contains_char dquote s = false.
Proof.
  induction s as [|c s IH]; cbn [all_chars contains_char]; [reflexivity|].
  intros H. apply andb_true_iff in H as [Hc Hs].
  rewrite (IH Hs), orb_false_r.
  destruct (Ascii.eqb dquote c) eqn:E; [|reflexivity].
  apply Ascii.eqb_eq in E. subst c. discriminate Hc.
Qed.

Lemma hexdigest_no_dquote (s : string) :
  hexdigest_shaped s = true -> contains_char dquote s = false.
Proof. unfold hexdigest_shaped. intros H. apply andb_true_iff in H. apply all_chars_no_dquote, H. Qed.

Lemma hexdigest_nonempty (s : string) : hexdigest_shaped s = true -> s <> "".
Proof. unfold hexdigest_shaped. intros H ->. discriminate H. Qed.

Lemma rev_str_app_acc (s t acc : string) : rev_str (s ++ t) acc = rev_str t (rev_str s acc).
Proof.
  revert acc. induction s as [|c s IH]; intros acc; [reflexivity|].
  exact (IH (String c acc)).
Qed.

Lemma rev_str_hd_kept (c : ascii) (s acc : string) :
  contains_char c s = false -> hd_kept (Ascii.eqb c) acc -> hd_kept (Ascii.eqb c) (rev_str s acc).
Proof.
  revert acc; induction s as [|d s IH]; intros acc Hs Hacc; simpl in *; [exact Hacc|].
  apply orb_false_iff in Hs as [Hd Hs]. apply IH; [exact Hs | exact Hd].
Qed.

(** Stripping the double quotes of [str(rdata)] gives back a record published as [r] when
    [r] neither starts nor ends with a double quote. *)
Lemma strip_dquotes_quoted (r : string) :
  hd_kept (Ascii.eqb dquote) r -> hd_kept (Ascii.eqb dquote) (rev_str r "") ->
  strip_dquotes (quoted r) = r.
Proof.
  intros H1 H2. unfold strip_dquotes, strip_by, quoted.
  change (lstrip_by (Ascii.eqb dquote) (String dquote (r ++ String dquote EmptyString)))
    with (lstrip_by (Ascii.eqb dquote) (r ++ String dquote EmptyString)).
  destruct r as [|c r']; [reflexivity|].
  rewrite (lstrip_by_kept (Ascii.eqb dquote) (String c r' ++ String dquote EmptyString) H1).
  rewrite rev_str_app.
  change (lstrip_by (Ascii.eqb dquote) (rev_str (String dquote EmptyString) "" ++ rev_str (String c r') ""))
    with (lstrip_by (Ascii.eqb dquote) (rev_str (String c r') "")).
  rewrite (lstrip_by_kept _ _ H2). apply rev_str_involutive.
Qed.

Lemma txt_record_strip_quoted (vtoken : string) :
  contains_char dquote vtoken = false ->
  strip_dquotes (quoted (Dns.txt_record_prefix ++ "=" ++ vtoken)) = Dns.txt_record_prefix ++ "=" ++ vtoken.
Proof.
  intros H. apply strip_dquotes_quoted; [reflexivity|].
  rewrite !rev_str_app_acc. apply rev_str_hd_kept; [exact H | reflexivity].
Qed.

Lemma published_record_found (vtoken : string) (rdatas : list string) :
  contains_char dquote vtoken = false ->
  In (quoted (Dns.txt_record_prefix ++ "=" ++ vtoken)) rdatas ->
  existsb (fun r => String.eqb r (Dns.txt_record_prefix ++ "=" ++ vtoken))
          (map strip_dquotes rdatas) = true.
Proof.
  intros Hq Hin. apply existsb_exists. exists (Dns.txt_record_prefix ++ "=" ++ vtoken).
  split; [|apply String.eqb_refl].
  rewrite <- (txt_record_strip_quoted vtoken Hq). apply in_map, Hin.
Qed.

(** A run of [Dns.verify_namespace] on a domain whose TXT lookup answers *)
Lemma dns_verify_namespace_answer (ns dom vtoken : string) (w : world) (log : list call)
    (rdatas : list string) :
  Dns.extract_domain_from_namespace ns = Some dom -> dom <> "" ->
  w_resolve_txt w dom = DnsAnswer rdatas ->
  exists res,
    Dns.verify_namespace ns vtoken w log =
      (Ok res, app (app log [CallDnsResolve dom]) [CallDnsResolve dom]) /\
    Dns.success res =
      existsb (fun r => String.eqb r (Dns.txt_record_prefix ++ "=" ++ vtoken))
              (map strip_dquotes rdatas) /\
    Dns.domain res = dom /\ Dns.txt_records res = map strip_dquotes rdatas /\
    Dns.verification_method res = "dns-txt".
Proof.
  intros Hx Hd Hr. unfold Dns.verify_namespace. rewrite Hx.
  apply String.eqb_neq in Hd. rewrite Hd.
  unfold Dns.verify_txt_record, Dns.get_txt_records, bind, resolve_txt, ret, utcnow.
  do 3 (cbv beta iota zeta delta [negb]; rewrite ?Hr).
  rewrite scan_records_exact.
  destruct (existsb _ _); eexists; (split; [reflexivity|]); repeat split.
Qed.

Lemma dns_instructions_run (ns dom : string) (w : world) (log : list call) :
  Dns.extract_domain_from_namespace ns = Some dom -> dom <> "" ->
  let vtoken := w_sha256_hexdigest w (dom ++ ":" ++ py_int_str (w_time_s w) ++ ":" ++ w_token_hex16 w) in
  exists kvs,
    Dns.generate_verification_instructions ns w log = (Ok (JObj kvs), log) /\
    assoc_last "domain" kvs = Some (JStr dom) /\
    assoc_last "verification_token" kvs = Some (JStr vtoken) /\
    assoc_last "txt_record" kvs = Some (JStr (Dns.txt_record_prefix ++ "=" ++ vtoken)).
Proof.
  intros Hx Hd vtoken. unfold Dns.generate_verification_instructions. rewrite Hx.
  apply String.eqb_neq in Hd. rewrite Hd.
  eexists. split; [reflexivity|]. repeat split.
Qed.

(** The DNS instructions make no request and name the domain of the
    namespace, a token and the TXT record [mcp-registry-verification=<token>];
    once that record is published on the domain (the resolver answering
    it, quoted as [str(rdata)] gives it, among the domain's TXT records),
    [DnsTxtVerifier.verify_namespace] with the token succeeds. This
    needs the token to be a hex digest (no double quote survives in it). *)
Theorem dns_instructions_then_verify (ns dom : string) (w : world) (log : list call) :
  Dns.extract_domain_from_namespace ns = Some dom -> dom <> "" ->
  (forall s, hexdigest_shaped (w_sha256_hexdigest w s) = true) ->
  exists kvs vtoken txt_record,
    Dns.generate_verification_instructions ns w log = (Ok (JObj kvs), log) /\
    assoc_last "domain" kvs = Some (JStr dom) /\
    assoc_last "verification_token" kvs = Some (JStr vtoken) /\
    assoc_last "txt_record" kvs = Some (JStr txt_record) /\
    forall w' log' rdatas,
      w_resolve_txt w' dom = DnsAnswer rdatas -> In (quoted txt_record) rdatas ->
      exists res, fst (Dns.verify_namespace ns vtoken w' log') = Ok res /\
                  Dns.success res = true.
Proof.
  intros Hx Hd Hhex.
  destruct (dns_instructions_run ns dom w log Hx Hd) as (kvs & Hrun & Hdom & Htok & Hrec).
  set (vtoken := w_sha256_hexdigest w _) in *.
  exists kvs, vtoken, (Dns.txt_record_prefix ++ "=" ++ vtoken).
  do 4 (split; [assumption|]).
  intros w' log' rdatas Hr Hin.
  destruct (dns_verify_namespace_answer ns dom vtoken w' log' rdatas Hx Hd Hr)
    as (res & Hv & Hs & _).
  exists res. rewrite Hv. split; [reflexivity|]. rewrite Hs.
  apply published_record_found; [apply hexdigest_no_dquote, Hhex | exact Hin].
Qed.

Lemma dns_instructions_then_verify_witness :
  exists kvs vtoken txt_record,
    Dns.generate_verification_instructions "com.example" dns_sample_world [] = (Ok (JObj kvs), []) /\
    assoc_last "domain" kvs = Some (JStr "example") /\
    assoc_last "verification_token" kvs = Some (JStr vtoken) /\
    assoc_last "txt_record" kvs = Some (JStr txt_record) /\
    forall w' log' rdatas,
      w_resolve_txt w' "example" = DnsAnswer rdatas -> In (quoted txt_record) rdatas ->
      exists res, fst (Dns.verify_namespace "com.example" vtoken w' log') = Ok res /\
                  Dns.success res = true.
Proof.
  apply (dns_instructions_then_verify "com.example" "example" dns_sample_world []).
  - reflexivity.
  - discriminate.
  - intros s. reflexivity.
Defined.

(** On a domain-style namespace whose TXT lookup answers, the DNS
    verifier queries the domain twice (once in [verify_namespace], once
    more in [verify_txt_record]), reports the records with their double
    quotes stripped, and succeeds exactly when one of them is
    [mcp-registry-verification=<token>]. *)
Theorem dns_verify_namespace_published (ns dom vtoken : string) (w : world) (log : list call)
    (rdatas : list string) :
  Dns.extract_domain_from_namespace ns = Some dom -> dom <> "" ->
  w_resolve_txt w dom = DnsAnswer rdatas ->
  exists res,
    Dns.verify_namespace ns vtoken w log =
      (Ok res, app log [CallDnsResolve dom; CallDnsResolve dom]) /\
    Dns.domain res = dom /\ Dns.txt_records res = map strip_dquotes rdatas /\
    (Dns.success res = true <->
     In (Dns.txt_record_prefix ++ "=" ++ vtoken) (map strip_dquotes rdatas)).
Proof.
  intros Hx Hd Hr.
  destruct (dns_verify_namespace_answer ns dom vtoken w log rdatas Hx Hd Hr)
    as (res & Hv & Hs & Hdom & Hrec & _).
  exists res. rewrite Hv, <- app_assoc. split; [reflexivity|].
  split; [exact Hdom|]. split; [exact Hrec|].
  rewrite Hs, existsb_exists. split.
  - intros (x & Hin & Heq). apply String.eqb_eq in Heq. subst x. exact Hin.
  - intros Hin. exists (Dns.txt_record_prefix ++ "=" ++ vtoken).
    split; [exact Hin | apply String.eqb_refl].
Qed.

Lemma dns_verify_namespace_published_witness :
  exists res,
    Dns.verify_namespace "com.example.com" "abc123..." dns_sample_world [] = (Ok res, app []
      [CallDnsResolve "example.com"; CallDnsResolve "example.com"]) /\
    Dns.domain res = "example.com" /\
    Dns.txt_records res = map strip_dquotes (map quoted sample_txt_records) /\
    (Dns.success res = true <->
     In (Dns.txt_record_prefix ++ "=" ++ "abc123...") (map strip_dquotes (map quoted sample_txt_records))).
Proof.
  apply (dns_verify_namespace_published "com.example.com" "example.com").
  all: reflexivity || discriminate.
Defined.

(** ** Serving the HTTP well-known file *)

(** A run of [Http.verify_namespace] when the HTTPS endpoint answers 200 *)
Lemma http_verify_namespace_https_ok (ns dom vtoken : string) (w : world) (log : list call)
    (r : response) :
  Http.extract_domain_from_namespace ns = Some dom -> dom <> "" ->
  w_http_get w (Http.build_endpoint_url dom true) Http.request_headers = HttpResponse r ->
  status_code r = 200%Z ->
  exists res,
    Http.verify_namespace ns vtoken w log =
      (Ok res, app log [CallHttpGet (Http.build_endpoint_url dom true) Http.request_headers]) /\
    Http.success res = Http.verify_token_in_response (fetched_body (Http.build_endpoint_url dom true) r) vtoken /\
    Http.endpoint_url res = Http.build_endpoint_url dom true.
Proof.
  intros Hx Hd Hw Hs. unfold Http.verify_namespace. rewrite Hx.
  apply String.eqb_neq in Hd. rewrite Hd.
  rewrite run_bind, http_fetch_run, run_bind, (http_fetched_run _ _ _ r Hw Hs).
  unfold ret, bind, utcnow. cbv beta iota zeta delta [negb].
  destruct (Http.verify_token_in_response _ vtoken) eqn:E;
    (eexists; split; [reflexivity|]); split; reflexivity.
Qed.

Lemma http_instructions_run (ns dom : string) (w : world) (log : list call) :
  Http.extract_domain_from_namespace ns = Some dom -> dom <> "" ->
  let vtoken := w_sha256_hexdigest w (dom ++ ":" ++ py_int_str (w_time_s w) ++ ":" ++ w_token_hex16 w) in
  exists kvs,
    Http.generate_verification_instructions ns w log = (Ok (JObj kvs), log) /\
    assoc_last "verification_token" kvs = Some (JStr vtoken) /\
    assoc_last "endpoint_url" kvs = Some (JStr (Http.build_endpoint_url dom true)) /\
    assoc_last "file_examples" kvs =
      Some (JObj [("json_example", JObj [("token", JStr vtoken); ("namespace", JStr ns);
                                         ("created_at", JStr (isoformat (w_utcnow_us w) ++ "Z"))]);
                  ("txt_example", JStr vtoken)]).
Proof.
  intros Hx Hd vtoken. unfold Http.generate_verification_instructions. rewrite Hx.
  apply String.eqb_neq in Hd. rewrite Hd.
  eexists. split; [reflexivity|]. repeat split.
Qed.

(** The HTTP instructions make no request and name a token, the HTTPS
    endpoint [https://<domain>/.well-known/mcp-registry-auth] and two
    example files, a JSON object with the token under [token] and the
    bare token. Once the endpoint answers 200 with the JSON example, or
    with a non-JSON body whose stripped text is the token,
    [HttpWellKnownVerifier.verify_namespace] with the token succeeds at
    that endpoint. *)
Theorem http_instructions_then_verify (ns dom : string) (w : world) (log : list call) :
  Http.extract_domain_from_namespace ns = Some dom -> dom <> "" ->
  exists kvs vtoken endpoint examples json_example,
    Http.generate_verification_instructions ns w log = (Ok (JObj kvs), log) /\
    assoc_last "verification_token" kvs = Some (JStr vtoken) /\
    assoc_last "endpoint_url" kvs = Some (JStr endpoint) /\
    assoc_last "file_examples" kvs = Some (JObj examples) /\
    assoc_last "json_example" examples = Some json_example /\
    assoc_last "txt_example" examples = Some (JStr vtoken) /\
    forall w' log' r,
      w_http_get w' endpoint Http.request_headers = HttpResponse r ->
      status_code r = 200%Z ->
      (resp_json r = inr json_example \/
       (exists msg, resp_json r = inl msg) /\ py_strip (resp_text r) = vtoken) ->
      exists res, fst (Http.verify_namespace ns vtoken w' log') = Ok res /\
                  Http.success res = true /\ Http.endpoint_url res = endpoint.
Proof.
  intros Hx Hd.
  destruct (http_instructions_run ns dom w log Hx Hd) as (kvs & Hrun & Htok & Hurl & Hex).
  set (vtoken := w_sha256_hexdigest w _) in *.
  do 5 eexists. split; [exact Hrun|]. split; [exact Htok|]. split; [exact Hurl|].
  split; [exact Hex|]. split; [reflexivity|]. split; [reflexivity|].
  intros w' log' r Hw Hs Hbody.
  destruct (http_verify_namespace_https_ok ns dom vtoken w' log' r Hx Hd Hw Hs)
    as (res & Hv & Hsucc & Hend).
  exists res. rewrite Hv. split; [reflexivity|]. split; [|exact Hend].
  rewrite Hsucc. unfold Http.verify_token_in_response, fetched_body. cbn [Http.content].
  destruct Hbody as [Hj | ([msg Hj] & Ht)]; rewrite Hj.
  - change (json_eq_str (Some (JStr vtoken)) vtoken || false || false || false = true).
    unfold json_eq_str. rewrite String.eqb_refl. reflexivity.
  - rewrite py_strip_idempotent, Ht. apply String.eqb_refl.
Qed.

Lemma http_instructions_then_verify_witness :
  exists kvs vtoken endpoint examples json_example,
    Http.generate_verification_instructions "com.example" dns_sample_world [] = (Ok (JObj kvs), []) /\
    assoc_last "verification_token" kvs = Some (JStr vtoken) /\
    assoc_last "endpoint_url" kvs = Some (JStr endpoint) /\
    assoc_last "file_examples" kvs = Some (JObj examples) /\
    assoc_last "json_example" examples = Some json_example /\
    assoc_last "txt_example" examples = Some (JStr vtoken) /\
    forall w' log' r,
      w_http_get w' endpoint Http.request_headers = HttpResponse r ->
      status_code r = 200%Z ->
      (resp_json r = inr json_example \/
       (exists msg, resp_json r = inl msg) /\ py_strip (resp_text r) = vtoken) ->
      exists res, fst (Http.verify_namespace "com.example" vtoken w' log') = Ok res /\
                  Http.success res = true /\ Http.endpoint_url res = endpoint.
Proof.
  apply (http_instructions_then_verify "com.example" "example" dns_sample_world []).
  - reflexivity.
  - discriminate.
Defined.

(** ** Verification setup *)

Lemma dns_domain_method (ns dom : string) :
  Dns.extract_domain_from_namespace ns = Some dom ->
  Dispatcher.determine_verification_method ns = Some Dispatcher.DNS_TXT.
Proof.
  unfold Dns.extract_domain_from_namespace, Dispatcher.determine_verification_method.
  destruct (startswith "com." ns) eqn:E1;
    [apply startswith_spec in E1 as [r ->]; reflexivity|].
  destruct (startswith "org." ns) eqn:E2;
    [apply startswith_spec in E2 as [r ->]; reflexivity|].
  destruct (startswith "net." ns) eqn:E3;
    [apply startswith_spec in E3 as [r ->]; reflexivity|].
  discriminate.
Qed.

Lemma dispatcher_setup_dns (ns dom : string) (w : world) (log : list call) :
  Dns.extract_domain_from_namespace ns = Some dom ->
  Dispatcher.generate_verification_setup ns None w log =
  Dns.generate_verification_instructions ns w log.
Proof.
  intros Hx. unfold Dispatcher.generate_verification_setup.
  rewrite (dns_domain_method ns dom Hx). reflexivity.
Qed.

Lemma dispatcher_dns_run (ns dom vtoken : string) (oauth_token : option string)
    (w : world) (log : list call) (res : Dns.DNSVerificationResult) (log' : list call) :
  Dns.extract_domain_from_namespace ns = Some dom -> vtoken <> "" ->
  Dns.verify_namespace ns vtoken w log = (Ok res, log') ->
  Dispatcher.verify_namespace Dispatcher.default_verifiers ns (Some vtoken) oauth_token w log =
  (Ok (Dispatcher.of_dns res), log').
Proof.
  intros Hx Ht Hv. unfold Dispatcher.verify_namespace.
  rewrite (dns_domain_method ns dom Hx).
  unfold try_except, Dispatcher.verify_with_method.
  apply String.eqb_neq in Ht. rewrite Ht.
  cbv iota. rewrite run_bind.
  cbn [Dispatcher.dns_verifier Dispatcher.default_verifiers]. rewrite Hv. reflexivity.
Qed.

(** Setting up a domain-style namespace without naming a method gives
    the DNS TXT instructions, with no request; publishing the TXT record
    they name on the domain makes the dispatcher's [verify_namespace]
    with their token succeed by the [dns-txt] method, whatever OAuth
    credential is passed. This needs the token to be a hex digest. *)
Theorem setup_then_dispatcher_verify (ns dom : string) (w : world) (log : list call) :
  Dns.extract_domain_from_namespace ns = Some dom -> dom <> "" ->
  (forall s, hexdigest_shaped (w_sha256_hexdigest w s) = true) ->
  exists kvs vtoken txt_record,
    Dispatcher.generate_verification_setup ns None w log = (Ok (JObj kvs), log) /\
    assoc_last "verification_token" kvs = Some (JStr vtoken) /\
    assoc_last "txt_record" kvs = Some (JStr txt_record) /\
    forall w' log' rdatas oauth_token,
      w_resolve_txt w' dom = DnsAnswer rdatas -> In (quoted txt_record) rdatas ->
      exists res,
        fst (Dispatcher.verify_namespace Dispatcher.default_verifiers ns (Some vtoken)
               oauth_token w' log') = Ok res /\
        Dispatcher.success res = true /\ Dispatcher.verification_method res = "dns-txt".
Proof.
  intros Hx Hd Hhex.
  destruct (dns_instructions_run ns dom w log Hx Hd) as (kvs & Hrun & _ & Htok & Hrec).
  set (vtoken := w_sha256_hexdigest w _) in *.
  exists kvs, vtoken, (Dns.txt_record_prefix ++ "=" ++ vtoken).
  split; [rewrite (dispatcher_setup_dns ns dom w log Hx); exact Hrun|].
  split; [exact Htok|]. split; [exact Hrec|].
  intros w' log' rdatas oauth_token Hr Hin.
  destruct (dns_verify_namespace_answer ns dom vtoken w' log' rdatas Hx Hd Hr)
    as (res & Hv & Hs & _ & _ & Hm).
  exists (Dispatcher.of_dns res).
  rewrite (dispatcher_dns_run ns dom vtoken oauth_token w' log' res _ Hx
             (hexdigest_nonempty _ (Hhex _)) Hv).
  split; [reflexivity|]. split; [|exact Hm].
  cbn [Dispatcher.of_dns Dispatcher.success]. rewrite Hs.
  apply published_record_found; [apply hexdigest_no_dquote, Hhex | exact Hin].
Qed.

Lemma setup_then_dispatcher_verify_witness :
  exists kvs vtoken txt_record,
    Dispatcher.generate_verification_setup "com.example" None dns_sample_world [] = (Ok (JObj kvs), []) /\
    assoc_last "verification_token" kvs = Some (JStr vtoken) /\
    assoc_last "txt_record" kvs = Some (JStr txt_record) /\
    forall w' log' rdatas oauth_token,
      w_resolve_txt w' "example" = DnsAnswer rdatas -> In (quoted txt_record) rdatas ->
      exists res,
        fst (Dispatcher.verify_namespace Dispatcher.default_verifiers "com.example" (Some vtoken)
               oauth_token w' log') = Ok res /\
        Dispatcher.success res = true /\ Dispatcher.verification_method res = "dns-txt".
Proof.
  apply (setup_then_dispatcher_verify "com.example" "example" dns_sample_world []).
  - reflexivity.
  - discriminate.
  - intros s. reflexivity.
Defined.

Lemma dns_instructions_offline (ns : string) (w : world) (log : list call) :
  exists j, Dns.generate_verification_instructions ns w log = (Ok j, log).
Proof.
  unfold Dns.generate_verification_instructions.
  destruct (Dns.extract_domain_from_namespace ns) as [dom|]; [destruct (String.eqb dom "")|];
    eexists; reflexivity.
Qed.

Lemma http_instructions_offline (ns : string) (w : world) (log : list call) :
  exists j, Http.generate_verification_instructions ns w log = (Ok j, log).
Proof.
  unfold Http.generate_verification_instructions.
  destruct (Http.extract_domain_from_namespace ns) as [dom|]; [destruct (String.eqb dom "")|];
    eexists; reflexivity.
Qed.

Lemma setup_for_method_offline (ns m : string) (w : world) (log : list call) :
  exists j, Dispatcher.setup_for_method ns m w log = (Ok j, log).
Proof.
  unfold Dispatcher.setup_for_method.
  destruct (String.eqb m (Dispatcher.value Dispatcher.GITHUB_OAUTH)); [eexists; reflexivity|].
  destruct (String.eqb m (Dispatcher.value Dispatcher.DNS_TXT)); [apply dns_instructions_offline|].
  destruct (String.eqb m (Dispatcher.value Dispatcher.HTTP_WELL_KNOWN));
    [apply http_instructions_offline | eexists; reflexivity].
Qed.

(** [generate_verification_setup] never raises and makes no request
    (no HTTP GET, no DNS query), whatever the namespace and method. *)
Theorem generate_verification_setup_offline (ns : string) (method : option string)
    (w : world) (log : list call) :
  exists j, Dispatcher.generate_verification_setup ns method w log = (Ok j, log).
Proof.
  unfold Dispatcher.generate_verification_setup. cbv zeta.
  destruct method as [m|]; [destruct (String.eqb m "")|];
    try apply setup_for_method_offline;
    destruct (Dispatcher.determine_verification_method ns);
    first [apply setup_for_method_offline | eexists; reflexivity].
Qed.

(** The error dicts of [generate_verification_setup]: without a method
    (absent or empty) a namespace with no method of its own gives
    [{"error": "Unsupported namespace format"}]; a method other than the
    three method values gives [{"error": "Unsupported verification method"}]
    whatever the namespace; the [dns-txt] and [http-well-known] methods on
    a namespace with no [com.]/[org.]/[net.] domain, or an empty one,
    give [{"error": "Invalid namespace format"}]. None of them makes a
    request. *)
Theorem generate_verification_setup_errors :
  (forall ns method w log,
     py_falsy_str method = true -> Dispatcher.determine_verification_method ns = None ->
     Dispatcher.generate_verification_setup ns method w log =
       (Ok (Dns.error_dict "Unsupported namespace format"), log)) /\
  (forall ns m w log,
     m <> "" -> m <> "github-oauth" -> m <> "dns-txt" -> m <> "http-well-known" ->
     Dispatcher.generate_verification_setup ns (Some m) w log =
       (Ok (Dns.error_dict "Unsupported verification method"), log)) /\
  (forall ns m w log,
     m = "dns-txt" \/ m = "http-well-known" ->
     match Dns.extract_domain_from_namespace ns with Some dom => dom = "" | None => True end ->
     Dispatcher.generate_verification_setup ns (Some m) w log =
       (Ok (Dns.error_dict "Invalid namespace format"), log)).
Proof.
  split; [|split].
  - intros ns method w log Hm Hd. unfold Dispatcher.generate_verification_setup. cbv zeta.
    rewrite Hd. destruct method as [m|]; [|reflexivity].
    simpl in Hm. rewrite Hm. reflexivity.
  - intros ns m w log H0 H1 H2 H3.
    unfold Dispatcher.generate_verification_setup, Dispatcher.setup_for_method.
    cbn [Dispatcher.value].
    rewrite (proj2 (String.eqb_neq _ _) H0), (proj2 (String.eqb_neq _ _) H1),
      (proj2 (String.eqb_neq _ _) H2), (proj2 (String.eqb_neq _ _) H3).
    reflexivity.
  - intros ns m w log Hm Hd.
    destruct Hm as [-> | ->].
    + transitivity (Dns.generate_verification_instructions ns w log); [reflexivity|].
      unfold Dns.generate_verification_instructions.
      destruct (Dns.extract_domain_from_namespace ns) as [dom|]; [subst dom|]; reflexivity.
    + transitivity (Http.generate_verification_instructions ns w log); [reflexivity|].
      unfold Http.generate_verification_instructions.
      change (Http.extract_domain_from_namespace ns) with (Dns.extract_domain_from_namespace ns).
      destruct (Dns.extract_domain_from_namespace ns) as [dom|]; [subst dom|]; reflexivity.
Qed.

(** With the method [github-oauth] named, [generate_verification_setup]
    does not check the namespace: a namespace outside [io.github.] gets
    GitHub instructions and a token, although the GitHub verifier
    rejects that namespace before any request, whatever the credential. *)
Theorem setup_github_oauth_unchecked (ns : string) (w : world) (log : list call) :
  startswith "io.github." ns = false ->
  (exists kvs vtoken,
     Dispatcher.generate_verification_setup ns (Some "github-oauth") w log = (Ok (JObj kvs), log) /\
     assoc_last "namespace" kvs = Some (JStr ns) /\
     assoc_last "method" kvs = Some (JStr "github-oauth") /\
     assoc_last "verification_token" kvs = Some (JStr vtoken)) /\
  (forall oauth_token w' log',
     exists res, GitHub.verify_namespace ns oauth_token w' log' = (Ok res, log') /\
                 GitHub.success res = false).
Proof.
  intros H. split.
  - do 2 eexists. split; [reflexivity|]. repeat split.
  - intros oauth_token w' log'. unfold GitHub.verify_namespace. rewrite H.
    eexists. split; reflexivity.
Qed.

Lemma setup_github_oauth_unchecked_witness :
  (exists kvs vtoken,
     Dispatcher.generate_verification_setup "com.example" (Some "github-oauth") dns_sample_world [] =
       (Ok (JObj kvs), []) /\
     assoc_last "namespace" kvs = Some (JStr "com.example") /\
     assoc_last "method" kvs = Some (JStr "github-oauth") /\
     assoc_last "verification_token" kvs = Some (JStr vtoken)) /\
  (forall oauth_token w' log',
     exists res, GitHub.verify_namespace "com.example" oauth_token w' log' = (Ok res, log') /\
                 GitHub.success res = false).
Proof.
  apply (setup_github_oauth_unchecked "com.example" dns_sample_world []). reflexivity.
Defined.

(** ** The GitHub user record *)

(** When [/user] answers 200 with a JSON object whose [login] is the
    expected user, [verify_github_user] accepts the account unless its
    [active] field is present and falsy ([false], [null], [0], an empty
    string, list or object): an account with no [active] field counts
    as active. *)
Theorem github_user_active_flag (username oauth_token : string) (w : world) (log : list call)
    (r : response) (kvs : list (string * json)) :
  w_http_get w (GitHub.github_api_base ++ "/user") (GitHub.headers oauth_token) = HttpResponse r ->
  status_code r = 200%Z -> resp_json r = inr (JObj kvs) ->
  assoc_last "login" kvs = Some (JStr username) ->
  fst (GitHub.verify_github_user username oauth_token w log) =
    Ok (match assoc_last "active" kvs with
        | Some v => if py_truthy v then (true, GitHub.GhUser (JObj kvs))
                    else (false, GitHub.GhError "User account is not active")
        | None => (true, GitHub.GhUser (JObj kvs))
        end).
Proof.
  intros Hw Hs Hj Hl.
  unfold GitHub.verify_github_user, try_except, bind, http_get, response_json, dict_get, ret.
  cbv beta iota zeta. rewrite Hw. cbv beta iota zeta. rewrite Hs, Z.eqb_refl.
  cbv beta iota zeta delta [negb]. rewrite Hj. cbv beta iota zeta.
  rewrite Hl. unfold json_eq_str. rewrite String.eqb_refl. cbv beta iota zeta delta [negb].
  destruct (assoc_last "active" kvs) as [v|]; [destruct (py_truthy v)|]; reflexivity.
Qed.

Lemma github_user_active_flag_witness :
  fst (GitHub.verify_github_user "alice" "gho_token" github_user_world []) =
    Ok (match assoc_last "active" [("login", JStr "alice"); ("active", JBool true)] with
        | Some v => if py_truthy v then (true, GitHub.GhUser (JObj [("login", JStr "alice"); ("active", JBool true)]))
                    else (false, GitHub.GhError "User account is not active")
        | None => (true, GitHub.GhUser (JObj [("login", JStr "alice"); ("active", JBool true)]))
        end).
Proof.
  apply (github_user_active_flag "alice" "gho_token" github_user_world []
           (json_response 200 (JObj [("login", JStr "alice"); ("active", JBool true)]))
           [("login", JStr "alice"); ("active", JBool true)]); reflexivity.
Defined.

Lemma github_verify_namespace_non_object (ns oauth_token : string) (w : world) (log : list call)
    (r : response) (j : json) :
  startswith "io.github." ns = true ->
  w_http_get w (GitHub.github_api_base ++ "/user") (GitHub.headers oauth_token) = HttpResponse r ->
  status_code r = 200%Z -> resp_json r = inr j -> (forall kvs, j <> JObj kvs) ->
  exists e, fst (GitHub.verify_namespace ns oauth_token w log) = Raised e /\
            is_request_exception e = false.
Proof.
  intros Hp Hw Hs Hj Hobj. unfold GitHub.verify_namespace. rewrite Hp.
  unfold GitHub.generate_verification_token, GitHub.verify_github_organization,
    GitHub.verify_github_user, GitHub.request_failed, try_except, bind, http_get,
    response_json, dict_get, subscript, ret, raise, time_time, token_hex16, sha256_hexdigest.
  cbv beta iota zeta delta [negb].
  destruct (contains_char "." (str_drop 10 ns)); cbv beta iota zeta; rewrite Hw;
    cbv beta iota zeta; rewrite Hs, Z.eqb_refl; cbv beta iota zeta delta [negb]; rewrite Hj;
    cbv beta iota zeta;
    (destruct j; [| | | | | exfalso; eapply Hobj; reflexivity]);
    eexists; split; reflexivity.
Qed.

(** When [/user] answers 200 with a JSON body that is not an object, the
    GitHub verifier raises an error that its [except
    requests.RequestException] does not catch, on the user path as on the
    organisation path; the dispatcher's [except Exception] turns it into
    a failed result [Verification system error: <error>] for the
    [github-oauth] method. *)
Theorem dispatcher_github_non_object_body (ns oauth_token : string) (vtoken : option string)
    (w : world) (log : list call) (r : response) (j : json) :
  startswith "io.github." ns = true -> oauth_token <> "" ->
  w_http_get w (GitHub.github_api_base ++ "/user") (GitHub.headers oauth_token) = HttpResponse r ->
  status_code r = 200%Z -> resp_json r = inr j -> (forall kvs, j <> JObj kvs) ->
  (exists e, fst (GitHub.verify_namespace ns oauth_token w log) = Raised e /\
             is_request_exception e = false) /\
  (exists e, fst (Dispatcher.verify_namespace Dispatcher.default_verifiers ns vtoken
                    (Some oauth_token) w log) =
             Ok (Dispatcher.failed ns "github-oauth" ("Verification system error: " ++ exn_str e))).
Proof.
  intros Hp Ho Hw Hs Hj Hobj.
  destruct (github_verify_namespace_non_object ns oauth_token w log r j Hp Hw Hs Hj Hobj)
    as (e & He & Hre).
  split; [exists e; split; assumption|].
  assert (Hd : Dispatcher.determine_verification_method ns = Some Dispatcher.GITHUB_OAUTH).
  { unfold Dispatcher.determine_verification_method. rewrite Hp. reflexivity. }
  unfold Dispatcher.verify_namespace. rewrite Hd.
  unfold try_except, Dispatcher.verify_with_method.
  apply String.eqb_neq in Ho. rewrite Ho. cbv iota. rewrite run_bind.
  cbn [Dispatcher.github_verifier Dispatcher.default_verifiers].
  destruct (GitHub.verify_namespace ns oauth_token w log) as [[res|e'] l]; cbn [fst] in He.
  - discriminate He.
  - exists e'. reflexivity.
Qed.

Lemma dispatcher_github_non_object_body_witness :
  (exists e, fst (GitHub.verify_namespace "io.github.alice" "gho_token" github_list_body_world []) =
             Raised e /\ is_request_exception e = false) /\
  (exists e, fst (Dispatcher.verify_namespace Dispatcher.default_verifiers "io.github.alice" None
                    (Some "gho_token") github_list_body_world []) =
             Ok (Dispatcher.failed "io.github.alice" "github-oauth"
                   ("Verification system error: " ++ exn_str e))).
Proof.
  apply (dispatcher_github_non_object_body "io.github.alice" "gho_token" None
           github_list_body_world [] (json_response 200 (JArr [])) (JArr [])).
  - reflexivity.
  - discriminate.
  - reflexivity.
  - reflexivity.
  - reflexivity.
  - intros kvs. discriminate.
Defined.

(** ** The requests of the DNS and HTTP verifiers *)

(** [DnsTxtVerifier.verify_namespace] makes no request for a namespace
    without a [com.]/[org.]/[net.] domain or with an empty one; otherwise
    it queries the TXT records of the domain once when that lookup fails
    and twice when it answers (the check of the token looks the records
    up again). It never makes an HTTP request. *)
Theorem dns_verify_namespace_queries (ns vtoken : string) (w : world) (log : list call) :
  snd (Dns.verify_namespace ns vtoken w log) =
  app log
    (match Dns.extract_domain_from_namespace ns with
     | Some dom =>
         if String.eqb dom "" then []
         else match w_resolve_txt w dom with
              | DnsAnswer _ => [CallDnsResolve dom; CallDnsResolve dom]
              | _ => [CallDnsResolve dom]
              end
     | None => []
     end).
Proof.
  unfold Dns.verify_namespace.
  destruct (Dns.extract_domain_from_namespace ns) as [dom|];
    [|rewrite app_nil_r; reflexivity].
  destruct (String.eqb dom ""); [rewrite app_nil_r; reflexivity|].
  unfold Dns.verify_txt_record, Dns.get_txt_records, bind, resolve_txt, ret, utcnow, negb.
  run_all; cbn [snd]; rewrite <- ?app_assoc; reflexivity.
Qed.

(** [HttpWellKnownVerifier.verify_namespace] makes no request for a
    namespace without a [com.]/[org.]/[net.] domain or with an empty one;
    otherwise it GETs [https://<domain>/.well-known/mcp-registry-auth],
    then [http://<domain>/.well-known/mcp-registry-auth] exactly when the
    first attempt failed (a [requests] exception or a status other than
    200), both with the verifier's headers. It makes no other request. *)
Theorem http_verify_namespace_requests (ns vtoken : string) (w : world) (log : list call) :
  snd (Http.verify_namespace ns vtoken w log) =
  app log
    (match Http.extract_domain_from_namespace ns with
     | Some dom =>
         if String.eqb dom "" then []
         else CallHttpGet (Http.build_endpoint_url dom true) Http.request_headers ::
              (if http_attempt_fails (w_http_get w (Http.build_endpoint_url dom true) Http.request_headers)
               then [CallHttpGet (Http.build_endpoint_url dom false) Http.request_headers]
               else [])
     | None => []
     end).
Proof.
  unfold Http.verify_namespace.
  destruct (Http.extract_domain_from_namespace ns) as [dom|];
    [|rewrite app_nil_r; reflexivity].
  destruct (String.eqb dom ""); [rewrite app_nil_r; reflexivity|].
  unfold Http.fetch_verification_endpoint, Http.fetch_loop, Http.try_url, http_attempt_fails,
    try_except, bind, http_get, response_json, ret, raise, utcnow, negb,
    is_json_decode_error, is_request_exception.
  run_all; cbn [snd]; rewrite <- ?app_assoc; reflexivity.
Qed.
